(** * Verification of the timetable solver of [app.py]

    The development embeds [generate_timetable] (app.py, lines 59-144):
    a randomized, restart-based greedy solver that places every course of
    a catalog in one of 5 x 4 weekly slots, under a per-student clash
    constraint and a per-student daily cap of four classes.

    Python values are modelled as follows.
    - strings (student ids, subjects, days, slot labels) are [string];
    - the pandas frame [student_df] is the list of its rows;
    - the dict [course_info] is an association list in insertion order;
    - [defaultdict(set)] and [defaultdict(list)] are [gmap]s read with a
      default; reading a missing key of [course_students] stores an empty
      set under it, and the model stores it too (the lists the inner
      dicts of [student_schedule] store on a read are local to an
      attempt and left out: no later read can tell them from absence);
    - the plain dict [student_schedule] is a [gmap] whose lookup of a
      missing key is an error ([KeyError]), hence [option] results;
    - integers are [Z]; [float('inf')] is the [None] of an [option Z];
    - the module-level generator of [random] is an explicit state that is
      threaded through the calls of [random.shuffle] and [random.randint];
    - the order in which a Python [set] is iterated is not specified by
      the language, so it is a parameter of the model;
    - the returned [pd.DataFrame(timetable)] is the list of its records.

    The decorator [st.cache_data], which memoises calls, is outside the
    model: the development is about what one execution of the body
    does.

    Around the solver the development also embeds the part of
    [process_data] that reads the head of each course file and builds
    [course_info] (lines 16-39, with the [except] of lines 53-54), and
    the selection of the personal schedule after login (lines 169-185).
    The rows that [pandas.read_csv] extracts, the regular expressions of
    [str.contains] and the Streamlit calls are not modelled. *)

From Stdlib Require Import ZArith Lia Ascii.
From stdpp Require Import base option list strings gmap pretty.

Local Open Scope string_scope.
Local Open Scope Z_scope.

#[local] Set Warnings "-clear-no-such-hyp".

(** ** Data model *)

(** A row of [student_df] as built by [process_data] (lines 48-52). *)
Record row := Row {
  row_student_id : string;
  row_student_name : string;
  row_subject : string
}.

(** A record of the returned frame (lines 125-131). *)
Record entry := Entry {
  e_subject : string;
  e_faculty : string;
  e_day : string;
  e_slot : string;
  e_room : string
}.

(** [course_students]: subject to set of student ids; and
    [student_schedule]: student id to day to list of slot labels. *)
Abbreviation enrollment := (gmap string (gset string)).
Abbreviation schedule := (gmap string (gmap string (list string))).

Global Instance row_eq_dec : EqDecision row.
Proof. solve_decision. Defined.

Global Instance entry_eq_dec : EqDecision entry.
Proof. solve_decision. Defined.

(** ** The two library services the solver calls *)

(** [random.shuffle] and [random.randint] read and advance the state of
    the process-wide generator.  The solver relies on nothing but their
    documented contracts: [shuffle] permutes its argument in place, and
    [randint a b] lies in the closed interval. *)
Class RandomSource (rng : Type) := {
  shuffle : ∀ {A : Type}, list A → rng → list A * rng;
  randint : Z → Z → rng → Z * rng;
  shuffle_perm : ∀ (A : Type) (l : list A) (g : rng), (shuffle l g).1 ≡ₚ l;
  randint_range : ∀ (a b : Z) (g : rng), a ≤ b → a ≤ (randint a b g).1 ≤ b
}.

(** Iteration order of the set object stored under a subject in
    [course_students]: some enumeration of its elements without
    repetition. *)
Class SetOrder := {
  set_iter : string → gset string → list string;
  set_iter_perm : ∀ (subj : string) (X : gset string), set_iter subj X ≡ₚ elements X
}.

(** ** Slot grid (lines 61-62 and 84) *)

Definition days : list string :=
  ["Monday"; "Tuesday"; "Wednesday"; "Thursday"; "Friday"].

Definition slots : list string :=
  ["09:00 AM - 10:30 AM"; "11:00 AM - 12:30 PM";
   "02:00 PM - 03:30 PM"; "04:00 PM - 05:30 PM"].

(** [[(d, s) for d in days for s in slots]] *)
Definition slot_grid : list (string * string) :=
  d ← days; s ← slots; [(d, s)].

(** ** Enrollment index built by the solver (lines 64-69) *)

(** [course_students[subj]] on a [defaultdict(set)]: the set the read
    gives. *)
Definition enrolled_of (course_students : enrollment)
    (subj : string) : gset string :=
  default ∅ (course_students !! subj).

(** What the same read leaves in [course_students]: a [defaultdict]
    stores a missing key, with a new empty set, before it gives the
    value. *)
Definition stored_by_read (course_students : enrollment)
    (subj : string) : enrollment :=
  match course_students !! subj with
  | Some _ => course_students
  | None => <[subj := ∅]> course_students
  end.

(** [course_students[row['Subject']].add(row['Student ID'])] *)
Definition add_enrollment (course_students : enrollment)
    (r : row) : enrollment :=
  <[row_subject r := enrolled_of course_students (row_subject r) ∪ {[row_student_id r]}]>
    course_students.

Definition build_course_students (student_df : list row) : enrollment :=
  foldl add_enrollment ∅ student_df.

(** [list(course_info.keys())]: a new list object holding the keys. *)
Definition dict_keys (course_info : list (string * string)) : list string :=
  course_info.*1.

(** [course_info.get(subj, "Unknown")] *)
Fixpoint dict_get (course_info : list (string * string)) (subj dflt : string) : string :=
  match course_info with
  | [] => dflt
  | (k, v) :: rest => if decide (k = subj) then v else dict_get rest subj dflt
  end.

(** ** Student load tracker (lines 74, 97, 102, 134) *)

(** [Series.unique()]: the distinct values in order of first appearance. *)
Fixpoint unique (l : list string) : list string :=
  match l with
  | [] => []
  | x :: rest => x :: filter (λ y, y ≠ x) (unique rest)
  end.

(** [{s: defaultdict(list) for s in student_df['Student ID'].unique()}] *)
Definition init_schedule (student_df : list row) : schedule :=
  list_to_map ((λ s, (s, ∅)) <$> unique (row_student_id <$> student_df)).

(** [student_schedule[student][day]]: the outer dict is a plain dict, so
    an unknown student raises [KeyError]; the inner one is a
    [defaultdict(list)]. *)
Definition sched_lookup (student_schedule : schedule)
    (student day : string) : option (list string) :=
  per_day ← student_schedule !! student;
  Some (default [] (per_day !! day)).

(** [student_schedule[student][day].append(slot)] *)
Definition sched_append (student_schedule : schedule)
    (student day slot : string) : option (schedule) :=
  per_day ← student_schedule !! student;
  Some (<[student := <[day := (default [] (per_day !! day) ++ [slot])%list]> per_day]>
          student_schedule).

(** The loop of lines 133-134. *)
Fixpoint update_trackers (student_schedule : schedule)
    (day slot : string) (students : list string)
    : option (schedule) :=
  match students with
  | [] => Some student_schedule
  | student :: rest =>
      student_schedule' ← sched_append student_schedule student day slot;
      update_trackers student_schedule' day slot rest
  end.

(** ** Evaluation of one candidate slot (lines 91-116) *)

(** The branch of lines 109-116. *)
Definition penalty_step (num_classes_today : nat) : Z :=
  if decide (num_classes_today = 0%nat) then -1000
  else if decide (num_classes_today = 1%nat) then -500
  else if decide (num_classes_today = 2%nat) then 100
  else 500.

(** The three variables a candidate slot leaves behind when the loop over
    the enrolled students ends. *)
Record verdict := Verdict {
  clash : bool;
  daily_limit_reached : bool;
  penalty : Z
}.

(** The loop of lines 95-116, entered with the value of [penalty]
    accumulated so far; both [break]s leave the loop at once. *)
Fixpoint eval_students (student_schedule : schedule)
    (day slot : string) (students : list string) (penalty : Z) : option verdict :=
  match students with
  | [] => Some (Verdict false false penalty)
  | student :: rest =>
      today ← sched_lookup student_schedule student day;
      if decide (slot ∈ today) then Some (Verdict true false penalty)
      else
        let num_classes_today := length today in
        if decide (4 ≤ num_classes_today)%nat then Some (Verdict false true penalty)
        else eval_students student_schedule day slot rest
               (penalty + penalty_step num_classes_today)
  end.

(** Lines 91-93 followed by the loop. *)
Definition eval_slot (student_schedule : schedule)
    (enrolled_students : list string) (time : string * string) : option verdict :=
  eval_students student_schedule time.1 time.2 enrolled_students 0.

(** [penalty < best_penalty], where [best_penalty] starts at
    [float('inf')] (here [None]) and is an integer afterwards. *)
Definition below_best (penalty : Z) (best_penalty : option Z) : bool :=
  match best_penalty with
  | None => true
  | Some b => bool_decide (penalty < b)
  end.

(** The loop of lines 90-121 over the candidate order, with the current
    [best_time] and [best_penalty]. *)
Fixpoint scan_slots (student_schedule : schedule)
    (enrolled_students : list string) (available_times : list (string * string))
    (best_time : option (string * string)) (best_penalty : option Z)
    : option (option (string * string) * option Z) :=
  match available_times with
  | [] => Some (best_time, best_penalty)
  | time :: rest =>
      v ← eval_slot student_schedule enrolled_students time;
      if negb (clash v) && negb (daily_limit_reached v) && below_best (penalty v) best_penalty
      then scan_slots student_schedule enrolled_students rest (Some time) (Some (penalty v))
      else scan_slots student_schedule enrolled_students rest best_time best_penalty
  end.

(** [f'CR-{n}'] *)
Definition room_label (n : Z) : string := "CR-" +:+ pretty n.

(** ** Objects and variables of one call *)

(** The objects alive during a call: the two argument objects, the two
    objects the function builds before its main loop, and the state of
    the generator of the [random] module.  The loop writes to two of
    them: to [all_subjects] ([random.shuffle], line 78) and to
    [course_students] (the read of line 81, when the key is missing). *)
Record solver_env (rng : Type) := SolverEnv {
  env_student_df : list row;
  env_course_info : list (string * string);
  env_course_students : enrollment;
  env_all_subjects : list string;
  env_random : rng
}.
Arguments SolverEnv {rng}.
Arguments env_student_df {rng}.
Arguments env_course_info {rng}.
Arguments env_course_students {rng}.
Arguments env_all_subjects {rng}.
Arguments env_random {rng}.

(** The variables an iteration of [for attempt in range(100)] binds. *)
Record attempt_vars := AttemptVars {
  var_attempt : nat;
  var_timetable : list entry;
  var_student_schedule : schedule;
  var_success : bool
}.

(** ** The solver (lines 59-144) *)

Section Solver.
Context {rng : Type} {RS : RandomSource rng} {SO : SetOrder}.

(** [enrolled_students = course_students[subj]], in the order in which
    the loops of lines 95 and 133 visit it. *)
Definition enrolled_students (course_students : enrollment)
    (subj : string) : list string :=
  set_iter subj (enrolled_of course_students subj).

(** The body of the loop over the subjects (lines 81-135) for [subj],
    with [course_students] as the read of line 81 leaves it: the result
    holds [placed], [timetable], [student_schedule] and the generator
    state at line 137. *)
Definition place_subject (course_info : list (string * string))
    (course_students : enrollment) (subj : string)
    (timetable : list entry)
    (student_schedule : schedule) (g : rng)
    : option (bool * list entry * schedule * rng) :=
  let enrolled := enrolled_students course_students subj in
  let '(available_times, g1) := shuffle slot_grid g in
  best ← scan_slots student_schedule enrolled available_times None None;
  match best.1 with
  | Some (day, slot) =>
      let '(n, g2) := randint 1 8 g1 in
      let timetable' :=
        (timetable ++
           [Entry subj (dict_get course_info subj "Unknown") day slot (room_label n)])%list in
      student_schedule' ← update_trackers student_schedule day slot enrolled;
      Some (true, timetable', student_schedule', g2)
  | None => Some (false, timetable, student_schedule, g1)
  end.

(** The loop of lines 80-139.  The result holds [success], [timetable],
    [student_schedule], [course_students] and the generator state when
    the loop is left, by exhaustion or by the [break] of line 139.  Each
    iteration starts with the read of line 81, which may store a key. *)
Fixpoint place_subjects (course_info : list (string * string))
    (course_students : enrollment) (subjects : list string)
    (timetable : list entry)
    (student_schedule : schedule) (g : rng)
    : option (bool * list entry * schedule * enrollment * rng) :=
  match subjects with
  | [] => Some (true, timetable, student_schedule, course_students, g)
  | subj :: rest =>
      let course_students' := stored_by_read course_students subj in
      '(placed, timetable', student_schedule', g') ←
        place_subject course_info course_students' subj timetable student_schedule g;
      if placed : bool
      then place_subjects course_info course_students' rest timetable' student_schedule' g'
      else Some (false, timetable', student_schedule', course_students', g')
  end.

(** Lines 61-69: the state in which the main loop is entered. *)
Definition init_env (student_df : list row) (course_info : list (string * string))
    (g : rng) : solver_env rng :=
  SolverEnv student_df course_info (build_course_students student_df)
    (dict_keys course_info) g.

(** One iteration of the main loop (lines 73-139). *)
Definition attempt_body (attempt : nat) (env : solver_env rng)
    : option (attempt_vars * solver_env rng) :=
  let student_schedule := init_schedule (env_student_df env) in
  let '(all_subjects, g1) := shuffle (env_all_subjects env) (env_random env) in
  '(success, timetable, student_schedule', course_students', g2) ←
    place_subjects (env_course_info env) (env_course_students env)
      all_subjects [] student_schedule g1;
  Some (AttemptVars attempt timetable student_schedule' success,
        SolverEnv (env_student_df env) (env_course_info env)
          course_students' all_subjects g2).

(** [for attempt in range(100)] with [remaining] iterations to go, the
    next of them numbered [attempt]; [last] holds the variables bound by
    the previous iteration, if there was one.  The loop is left by the
    [return] of line 142 or by exhaustion. *)
Fixpoint for_attempts (remaining attempt : nat) (env : solver_env rng)
    (last : option attempt_vars) : option (option attempt_vars * solver_env rng) :=
  match remaining with
  | O => Some (last, env)
  | S remaining' =>
      r ← attempt_body attempt env;
      if var_success r.1 then Some (Some r.1, r.2)
      else for_attempts remaining' (S attempt) r.2 (Some r.1)
  end.

(** The variables and objects with which a call reaches one of its two
    [return] statements (lines 142 and 144). *)
Definition run_solver (student_df : list row) (course_info : list (string * string))
    (g : rng) : option (attempt_vars * solver_env rng) :=
  r ← for_attempts 100 0 (init_env student_df course_info g) None;
  vars ← r.1;
  Some (vars, r.2).

(** The value returned: [pd.DataFrame(timetable)]. *)
Definition generate_timetable (student_df : list row)
    (course_info : list (string * string)) (g : rng) : option (list entry) :=
  (λ r, var_timetable r.1) <$> run_solver student_df course_info g.

End Solver.

(** ** Notions the properties are stated with *)

(** The student [s] is enrolled in [subj]: some row of the frame says so. *)
Definition enrolls (student_df : list row) (subj s : string) : Prop :=
  Exists (λ r, row_subject r = subj ∧ row_student_id r = s) student_df.

Global Instance enrolls_dec student_df subj s : Decision (enrolls student_df subj s).
Proof. unfold enrolls. apply _. Defined.

(** The records of a timetable that put a course of student [s] on day
    [d], and those that put one in the slot [(d, sl)]. *)
Definition classes_on (student_df : list row) (timetable : list entry)
    (s d : string) : list entry :=
  filter (λ e, e_day e = d ∧ enrolls student_df (e_subject e) s) timetable.

Definition classes_at (student_df : list row) (timetable : list entry)
    (s d sl : string) : list entry :=
  filter (λ e, e_day e = d ∧ e_slot e = sl ∧ enrolls student_df (e_subject e) s) timetable.

(** The contribution of one student to the penalty of a slot, by the
    number of classes the student already has that day. *)
Definition contribution (existing : nat) : Z :=
  match existing with
  | 0%nat => -1000
  | 1%nat => -500
  | 2%nat => 100
  | _ => 500
  end.

Definition Zsum (l : list Z) : Z := foldr Z.add 0 l.

(** What the tracker holds for a student and a day, [[]] when it holds
    nothing. *)
Definition load (student_schedule : schedule)
    (s d : string) : list string :=
  default [] (sched_lookup student_schedule s d).

(** A student lets a slot through: neither of the two hard constraints
    of lines 97 and 103 fires. *)
Definition admits (student_schedule : schedule)
    (day slot s : string) : Prop :=
  (slot ∉ load student_schedule s day) ∧ (length (load student_schedule s day) < 4)%nat.

Global Instance admits_dec student_schedule day slot s :
  Decision (admits student_schedule day slot s).
Proof. unfold admits. apply _. Defined.

(** A slot is hard-feasible for a course with accumulated penalty [p]. *)
Definition feasible_with (student_schedule : schedule)
    (enrolled : list string) (time : string * string) (p : Z) : Prop :=
  eval_slot student_schedule enrolled time = Some (Verdict false false p).

(** A slot is rejected for a course: its evaluation ends with [clash] or
    [daily_limit_reached] set. *)
Definition rejected (student_schedule : schedule)
    (enrolled : list string) (time : string * string) : Prop :=
  ∃ v, eval_slot student_schedule enrolled time = Some v ∧
       (clash v = true ∨ daily_limit_reached v = true).

Section Attempts.
Context {rng : Type} {RS : RandomSource rng} {SO : SetOrder}.

(** The objects as the attempt numbered [k] finds them, when every
    earlier attempt has run to its end. *)
Fixpoint env_before (student_df : list row) (course_info : list (string * string))
    (g : rng) (k : nat) : option (solver_env rng) :=
  match k with
  | O => Some (init_env student_df course_info g)
  | S k' =>
      env ← env_before student_df course_info g k';
      r ← attempt_body k' env;
      Some r.2
  end.

(** The attempt numbered [k]. *)
Definition nth_attempt (student_df : list row) (course_info : list (string * string))
    (g : rng) (k : nat) : option (attempt_vars * solver_env rng) :=
  env ← env_before student_df course_info g k;
  attempt_body k env.
End Attempts.

(** ** Invariants of the solver *)

(** Every student of [students] has an entry in the outer dict. *)
Definition covers (student_schedule : schedule)
    (students : list string) : Prop :=
  ∀ s, s ∈ students → is_Some (student_schedule !! s).

(** The penalty a list of students adds up to. *)
Definition penalty_of (student_schedule : schedule)
    (day : string) (students : list string) : Z :=
  Zsum ((λ s, contribution (length (load student_schedule s day))) <$> students).

(** The tracker has an entry for every student of the frame and holds,
    for each student and day, the slots of the timetable records that
    concern the student that day, in the order they were placed. *)
Definition tracks (student_df : list row) (timetable : list entry)
    (student_schedule : schedule) : Prop :=
  (∀ s, s ∈ row_student_id <$> student_df → is_Some (student_schedule !! s)) ∧
  (∀ s d, load student_schedule s d = e_slot <$> classes_on student_df timetable s d).

(** No student has two classes in one slot or more than four in a day. *)
Definition within_limits (student_df : list row) (timetable : list entry) : Prop :=
  ∀ s d, NoDup (e_slot <$> classes_on student_df timetable s d) ∧
         (length (classes_on student_df timetable s d) ≤ 4)%nat.

(** A record is well formed for a catalog. *)
Definition entry_ok (course_info : list (string * string)) (e : entry) : Prop :=
  e_faculty e = dict_get course_info (e_subject e) "Unknown" ∧
  (e_day e, e_slot e) ∈ slot_grid ∧
  ∃ n, 1 ≤ n ≤ 8 ∧ e_room e = room_label n.

(** Every read of [course_students] gives the set that a read of
    [built] gives. *)
Definition reads_as (built course_students : enrollment) : Prop :=
  ∀ subj, enrolled_of course_students subj = enrolled_of built subj.

(** An index that has grown out of [built] by reads of line 81: a key of
    [built] keeps its set, and a new key is one of [keys] and holds the
    empty set. *)
Definition grown_from (built : enrollment) (keys : list string)
    (course_students : enrollment) : Prop :=
  ∀ subj, course_students !! subj = built !! subj ∨
          (built !! subj = None ∧ course_students !! subj = Some ∅ ∧ subj ∈ keys).

(** The objects of a call on [student_df] and [course_info], between two
    attempts: the arguments are as passed, the enrollment index is the
    one built from the frame, up to empty sets stored under courses of
    the catalog, and [all_subjects] is some arrangement of the catalog's
    keys. *)
Definition env_ok {rng : Type} (student_df : list row)
    (course_info : list (string * string)) (env : solver_env rng) : Prop :=
  env_student_df env = student_df ∧ env_course_info env = course_info ∧
  grown_from (build_course_students student_df) (dict_keys course_info)
    (env_course_students env) ∧
  env_all_subjects env ≡ₚ dict_keys course_info.

(** What an attempt leaves behind. *)
Definition attempt_ok {rng : Type} {SO : SetOrder} (student_df : list row)
    (course_info : list (string * string)) (vars : attempt_vars)
    (env' : solver_env rng) : Prop :=
  tracks student_df (var_timetable vars) (var_student_schedule vars) ∧
  within_limits student_df (var_timetable vars) ∧
  Forall (entry_ok course_info) (var_timetable vars) ∧
  ∃ rest,
    env_all_subjects env' = ((e_subject <$> var_timetable vars) ++ rest)%list ∧
    if var_success vars then rest = []
    else ∃ c post, rest = c :: post ∧
           ∀ time, time ∈ slot_grid →
             rejected (var_student_schedule vars)
               (enrolled_students (build_course_students student_df) c) time.

(** What an attempt leaves, in terms of the frame and the catalog alone:
    [all_subjects] is an arrangement of the catalog's keys, the tracker
    mirrors the timetable, and the timetable holds the courses of that
    arrangement up to the first one for which every slot of the grid
    has an enrolled student who does not let it through; it holds all of
    them after a success. *)
Definition attempt_outcome {rng : Type} (student_df : list row)
    (course_info : list (string * string)) (vars : attempt_vars)
    (env' : solver_env rng) : Prop :=
  env_all_subjects env' ≡ₚ dict_keys course_info ∧
  tracks student_df (var_timetable vars) (var_student_schedule vars) ∧
  ∃ rest,
    env_all_subjects env' = ((e_subject <$> var_timetable vars) ++ rest)%list ∧
    if var_success vars then rest = []
    else ∃ c post, rest = c :: post ∧
           ∀ time, time ∈ slot_grid →
             ∃ s, enrolls student_df c s ∧
                  ¬ admits (var_student_schedule vars) time.1 time.2 s.



(** The distinct slots a student occupies on a day. *)
Definition occupied_slots (student_df : list row) (timetable : list entry)
    (s d : string) : list string :=
  remove_dups (e_slot <$> classes_on student_df timetable s d).



(** ** Concrete generators and set orders

    Two generators meeting the contracts of [RandomSource], and two
    iteration orders for sets; the examples below run the solver on them. *)

(** A generator whose state is a number advanced by a linear congruence;
    [shuffle] rotates the list by an amount read off the state. *)
Definition lcg_next (g : Z) : Z := (g * 1103515245 + 12345) `mod` 2147483648.

Definition lcg_shuffle {A : Type} (l : list A) (g : Z) : list A * Z :=
  (rotate (Z.to_nat (g `mod` 1009)) l, lcg_next g).

Definition lcg_randint (a b g : Z) : Z * Z :=
  (a + g `mod` (b - a + 1), lcg_next g).

#[local] Program Instance lcg_source : RandomSource Z :=
  {| shuffle := @lcg_shuffle; randint := lcg_randint |}.
Next Obligation.
  intros A l g. unfold lcg_shuffle, rotate. simpl.
  rewrite Permutation_app_comm. by rewrite take_drop.
Qed.
Next Obligation.
  intros a b g Hab. unfold lcg_randint. simpl.
  pose proof (Z.mod_pos_bound g (b - a + 1)). lia.
Qed.

(** A generator that leaves every list in place and always draws the
    lower bound. *)
#[local] Program Instance still_source : RandomSource unit :=
  {| shuffle := λ A l g, (l, g); randint := λ a b g, (a, g) |}.
Next Obligation. done. Qed.
Next Obligation. simpl. lia. Qed.

(** Sets visited in the order of [elements], and in the opposite order. *)
#[local] Program Instance elements_order : SetOrder :=
  {| set_iter := λ _ X, elements X |}.
Next Obligation. done. Qed.

#[local] Program Instance reverse_order : SetOrder :=
  {| set_iter := λ _ X, reverse (elements X) |}.
Next Obligation. intros. simpl. apply reverse_Permutation. Qed.

(** ** Sample inputs *)

Definition demo_df : list row :=
  [Row "H001" "Asha" "OR"; Row "H002" "Bela" "OR"; Row "H001" "Asha" "Stats";
   Row "H003" "Chen" "Stats"; Row "H002" "Bela" "Econ"].

Definition demo_info : list (string * string) :=
  [("OR", "Rao"); ("Stats", "Iyer"); ("Econ", "Sen"); ("Law", "Unknown")].

(** One student enrolled in each of [n] courses. *)
Definition one_student (n : nat) : list row :=
  (λ i, Row "H001" "Asha" ("C" +:+ pretty i)) <$> seq 0 n.

Definition catalog (n : nat) : list (string * string) :=
  (λ i, ("C" +:+ pretty i, "Rao")) <$> seq 0 n.

(** The tracker after "OR" (students H001 and H002) has been placed on
    Monday morning. *)
Definition demo_tracker : schedule :=
  default ∅ (update_trackers (init_schedule demo_df)
               "Monday" "09:00 AM - 10:30 AM" ["H001"; "H002"]).

(** The results of two runs and of one placement, computed once. *)
Definition demo_run : option (attempt_vars * solver_env Z) :=
  Eval vm_compute in
    run_solver (RS:=lcg_source) (SO:=elements_order) demo_df demo_info 7.

Definition six_run : option (attempt_vars * solver_env Z) :=
  Eval vm_compute in
    run_solver (RS:=lcg_source) (SO:=reverse_order) (one_student 6) (catalog 6) 3.

Definition stats_step
    : option (bool * list entry * schedule * unit) :=
  Eval vm_compute in
    place_subject (RS:=still_source) (SO:=elements_order) demo_info
      (build_course_students demo_df) "Stats" [] demo_tracker tt.

(** * The code around the solver *)

(** ** Scanning the head of a course file (lines 21-39)

    A Python [str] is the [string] of its code points, which restricts
    this part to text whose code points are below 256. *)

(** [needle in hay] on strings. *)
Fixpoint contains (needle hay : string) : bool :=
  String.prefix needle hay ||
  match hay with
  | EmptyString => false
  | String _ rest => contains needle rest
  end.

(** [s.split(sep)] for a separator of one character. *)
Fixpoint split (sep : ascii) (s : string) : list string :=
  match s with
  | EmptyString => [EmptyString]
  | String c rest =>
      if decide (c = sep) then EmptyString :: split sep rest
      else match split sep rest with
           | [] => [String c EmptyString]
           | p :: ps => String c p :: ps
           end
  end.

(** The characters [str.strip()] removes: the white space of Python
    among the code points below 256. *)
Definition isspace (c : ascii) : bool :=
  let n := N_of_ascii c in
  ((9 <=? n) && (n <=? 13) || (28 <=? n) && (n <=? 32) || (n =? 133) || (n =? 160))%N.

Fixpoint lstrip (s : string) : string :=
  match s with
  | EmptyString => EmptyString
  | String c rest => if isspace c then lstrip rest else s
  end.

Fixpoint rstrip (s : string) : string :=
  match s with
  | EmptyString => EmptyString
  | String c rest =>
      match rstrip rest with
      | EmptyString => if isspace c then EmptyString else String c EmptyString
      | r => String c r
      end
  end.

(** [s.strip()] *)
Definition strip (s : string) : string := rstrip (lstrip s).

(** The first loop (lines 23-30) over [enumerate(lines[:10])], entered at
    index [i] with the current [faculty]; the result holds [faculty] and
    [header_idx], which stays -1 when the loop ends without [break]. *)
Fixpoint scan_header (i : nat) (lines : list string) (faculty : string) : string * Z :=
  match lines with
  | [] => (faculty, -1)
  | line :: rest =>
      let faculty' :=
        if contains "Faculty Name" line then
          match split "," line !! 1%nat with
          | Some field => if decide (strip field = "") then faculty else strip field
          | None => faculty
          end
        else faculty in
      if contains "Student ID" line && contains "Student Name" line
      then (faculty', Z.of_nat i)
      else scan_header (S i) rest faculty'
  end.

(** The second loop (lines 32-36) over the indices [range(max(0,
    header_idx))], with the current [subject]; [lines[i]] and
    [split(',')[0]] fail with [IndexError] when out of range. *)
Fixpoint scan_subject (lines : list string) (indices : list nat) (subject : string)
    : option string :=
  match indices with
  | [] => Some subject
  | i :: rest =>
      line ← lines !! i;
      if negb (contains "Faculty Name" line) && negb (contains "Group Mail ID" line)
      then
        field ← split "," line !! 0%nat;
        let potential_subj := strip field in
        if decide (potential_subj ≠ "" ∧ potential_subj ∉ ["SN"; "Serial No."])
        then scan_subject lines rest potential_subj
        else scan_subject lines rest subject
      else scan_subject lines rest subject
  end.

(** Lines 21-38 for one file: the result holds [subject], [faculty] and
    [header_idx]. *)
Definition scan_file (file : string) (lines : list string) : option (string * string * Z) :=
  let '(faculty, header_idx) := scan_header 0 (take 10 lines) "Unknown" in
  subject ← scan_subject lines (seq 0 (Z.to_nat (Z.max 0 header_idx))) "Unknown";
  subject' ← (if decide (subject = "Unknown") then split "." file !! 0%nat
              else Some subject);
  Some (subject', faculty, header_idx).

(** [course_info[subject] = faculty] on a dict in insertion order: a
    present key keeps its place and takes the new value. *)
Fixpoint dict_set (course_info : list (string * string)) (k v : string)
    : list (string * string) :=
  match course_info with
  | [] => [(k, v)]
  | (k', v') :: rest =>
      if decide (k' = k) then (k, v) :: rest else (k', v') :: dict_set rest k v
  end.

(** What one file adds to [course_info] (lines 16-39 and 53-54).  A file
    comes with the lines [readlines] gives, or with none when [open] or
    [readlines] raises; any exception abandons the file. *)
Definition add_file (course_info : list (string * string))
    (file : string * option (list string)) : list (string * string) :=
  match file.2 ≫= scan_file file.1 with
  | Some (subject, faculty, _) => dict_set course_info subject faculty
  | None => course_info
  end.

(** The catalog [process_data] returns for the files [glob] lists. *)
Definition course_info_of (files : list (string * option (list string)))
    : list (string * string) :=
  foldl add_file [] files.

(** A line is the header when it names both columns. *)
Definition is_header (line : string) : bool :=
  contains "Student ID" line && contains "Student Name" line.

(** The faculty a line gives, if it gives one. *)
Definition names_faculty (line faculty : string) : Prop :=
  contains "Faculty Name" line = true ∧
  ∃ field, split "," line !! 1%nat = Some field ∧ faculty = strip field ∧ faculty ≠ "".

(** The subject a line gives, if it gives one. *)
Definition names_subject (line subject : string) : Prop :=
  contains "Faculty Name" line = false ∧ contains "Group Mail ID" line = false ∧
  ∃ field, split "," line !! 0%nat = Some field ∧ subject = strip field ∧
           subject ≠ "" ∧ subject ∉ ["SN"; "Serial No."].

(** ** The personal schedule shown after login (lines 169-185) *)

(** [student_df[mask]] (lines 169-172): the rows the login selects, in
    the order of the frame.  The mask is the conjunction of two
    [str.contains] tests on the row; it is a parameter here. *)
Definition user_rows (mask : row → bool) (student_df : list row) : list row :=
  filter (λ r, mask r = true) student_df.

(** [user_data['Subject'].tolist()] (line 179). *)
Definition subjects_of (user_data : list row) : list string :=
  row_subject <$> user_data.

(** [master_schedule[master_schedule['Subject'].isin(enrolled_subjects)]]
    (line 180).  The frame [pd.DataFrame([])] built from an empty
    timetable has no column, so selecting ['Subject'] raises [KeyError]. *)
Definition personal_schedule (master_schedule : list entry)
    (enrolled_subjects : list string) : option (list entry) :=
  match master_schedule with
  | [] => None
  | _ => Some (filter (λ e, e_subject e ∈ enrolled_subjects) master_schedule)
  end.

(** The pair [pivot(index='Time Slot', columns='Day', ...)] files a row
    under (line 185); [pivot] raises [ValueError] when two rows have the
    same pair. *)
Definition pivot_key (e : entry) : string * string := (e_slot e, e_day e).

(** ** Further notions for the solver *)

(** The state of an attempt: the tracker mirrors the timetable, the
    timetable is within the two hard limits and its records are well
    formed. *)
Definition sound (student_df : list row) (course_info : list (string * string))
    (timetable : list entry) (student_schedule : schedule) : Prop :=
  tracks student_df timetable student_schedule ∧
  within_limits student_df timetable ∧
  Forall (entry_ok course_info) timetable.

(** The slots the records of a timetable use. *)
Definition used_slots (timetable : list entry) : list (string * string) :=
  (λ e, (e_day e, e_slot e)) <$> timetable.

(** A placed course that shares a student with [subj] sits in slot [time]. *)
Definition taken (student_df : list row) (timetable : list entry)
    (subj : string) (time : string * string) : Prop :=
  ∃ e s, e ∈ timetable ∧ (e_day e, e_slot e) = time ∧
         enrolls student_df subj s ∧ enrolls student_df (e_subject e) s.

(** The classes of student [s] are spread evenly over the week: the
    numbers of classes on two days differ by at most one. *)
Definition balanced (student_df : list row) (timetable : list entry) (s : string) : Prop :=
  ∀ d1 d2, d1 ∈ days → d2 ∈ days →
    (length (classes_on student_df timetable s d1) ≤
     length (classes_on student_df timetable s d2) + 1)%nat.

(** ** Further sample inputs *)

(** The timetable after "OR" has been placed on Monday morning. *)
Definition or_timetable : list entry :=
  [Entry "OR" "Rao" "Monday" "09:00 AM - 10:30 AM" "CR-1"].

(** The timetable and the tracker after twenty courses of one student
    have been placed, the candidate slots being tried in grid order. *)
Definition full_week : option (bool * list entry * schedule * enrollment * unit) :=
  Eval vm_compute in
    place_subjects (RS:=still_source) (SO:=elements_order) (catalog 21)
      (build_course_students (one_student 21)) (dict_keys (catalog 20)) []
      (init_schedule (one_student 21)) tt.

Definition full_week_timetable : list entry :=
  Eval vm_compute in default [] ((λ r, r.1.1.1.2) <$> full_week).

Definition full_week_tracker : schedule :=
  Eval vm_compute in default ∅ ((λ r, r.1.1.2) <$> full_week).

Definition full_week_index : enrollment :=
  Eval vm_compute in default ∅ ((λ r, r.1.2) <$> full_week).

(** Two students with one course each. *)
Definition disjoint_df : list row :=
  [Row "H001" "Asha" "OR"; Row "H002" "Bela" "Stats"].

(** The head of a course file. *)
Definition sample_lines : list string :=
  ["Operations Research,,"; "Faculty Name, Dr. Rao ,";
   "SN,Student ID,Student Name"; "1,H001,Asha"].

(** A login that selects the rows of H001. *)
Definition h001_mask (r : row) : bool := bool_decide (row_student_id r = "H001").

(** * Properties *)

(** ** The enrollment index *)

Lemma elem_of_unique (x : string) (l : list string) : x ∈ unique l ↔ x ∈ l.
Proof.
  induction l as [|y l IH]; simpl; [done|].
  rewrite !elem_of_cons, list_elem_of_filter, IH.
  destruct (decide (x = y)); naive_solver.
Qed.

Lemma init_schedule_lookup (student_df : list row) (s : string) :
  s ∈ row_student_id <$> student_df → init_schedule student_df !! s = Some ∅.
Proof.
  unfold init_schedule. rewrite <- elem_of_unique.
  induction (unique (row_student_id <$> student_df)) as [|y l IH]; simpl.
  - by intros ?%elem_of_nil.
  - intros [->|Hin]%elem_of_cons.
    + by rewrite lookup_insert_eq.
    + destruct (decide (y = s)) as [->|Hne].
      * by rewrite lookup_insert_eq.
      * rewrite lookup_insert_ne by done. by apply IH.
Qed.

Lemma enrolls_exists (student_df : list row) (subj s : string) :
  enrolls student_df subj s ↔
  ∃ r, r ∈ student_df ∧ row_subject r = subj ∧ row_student_id r = s.
Proof. unfold enrolls. by rewrite Exists_exists. Qed.

Lemma enrolls_student_id (student_df : list row) (subj s : string) :
  enrolls student_df subj s → s ∈ row_student_id <$> student_df.
Proof.
  rewrite enrolls_exists. intros (r & Hr & _ & <-). by apply list_elem_of_fmap_2.
Qed.

Lemma elem_of_add_enrollment (cs : enrollment) (r : row) (subj s : string) :
  s ∈ enrolled_of (add_enrollment cs r) subj ↔
  s ∈ enrolled_of cs subj ∨ (row_subject r = subj ∧ row_student_id r = s).
Proof.
  unfold add_enrollment, enrolled_of at 1.
  destruct (decide (row_subject r = subj)) as [->|Hne].
  - rewrite lookup_insert_eq. simpl. set_solver.
  - rewrite lookup_insert_ne by done. fold (enrolled_of cs subj). naive_solver.
Qed.

Lemma elem_of_foldl_add_enrollment (student_df : list row)
    (cs : enrollment) (subj s : string) :
  s ∈ enrolled_of (foldl add_enrollment cs student_df) subj ↔
  s ∈ enrolled_of cs subj ∨ enrolls student_df subj s.
Proof.
  revert cs. induction student_df as [|r df IH]; intros cs; simpl.
  - rewrite enrolls_exists. set_solver.
  - rewrite IH, elem_of_add_enrollment, !enrolls_exists. set_solver.
Qed.

(** The set built for a subject holds exactly the students some row
    enrolls in it. *)
Lemma elem_of_build_course_students (student_df : list row) (subj s : string) :
  s ∈ enrolled_of (build_course_students student_df) subj ↔ enrolls student_df subj s.
Proof.
  unfold build_course_students. rewrite elem_of_foldl_add_enrollment.
  unfold enrolled_of at 1. rewrite lookup_empty. set_solver.
Qed.

(** A read of line 81 changes no set that a later read gives. *)
Lemma enrolled_of_stored_by_read (cs : enrollment) (c subj : string) :
  enrolled_of (stored_by_read cs c) subj = enrolled_of cs subj.
Proof.
  unfold stored_by_read, enrolled_of.
  destruct (cs !! c) as [X|] eqn:Hc; [done|].
  destruct (decide (c = subj)) as [->|Hne].
  - by rewrite lookup_insert_eq, Hc.
  - by rewrite lookup_insert_ne.
Qed.

Lemma stored_by_read_lookup (cs : enrollment) (c : string) :
  is_Some (stored_by_read cs c !! c).
Proof.
  unfold stored_by_read. destruct (cs !! c) as [X|] eqn:Hc; [by rewrite Hc|].
  rewrite lookup_insert_eq. eauto.
Qed.

Lemma stored_by_read_keeps (cs : enrollment) (c subj : string) :
  is_Some (cs !! subj) → stored_by_read cs c !! subj = cs !! subj.
Proof.
  intros [X HX]. unfold stored_by_read. destruct (cs !! c) as [Y|] eqn:Hc; [done|].
  rewrite lookup_insert_ne; [done|]. intros ->. congruence.
Qed.

Lemma grown_from_refl (built : enrollment) (keys : list string) :
  grown_from built keys built.
Proof. intros subj. by left. Qed.

Lemma grown_from_enrolled_of (built cs : enrollment) (keys : list string) (subj : string) :
  grown_from built keys cs → enrolled_of cs subj = enrolled_of built subj.
Proof.
  intros Hg. unfold enrolled_of. destruct (Hg subj) as [->|(-> & -> & _)]; done.
Qed.

Lemma grown_from_reads_as (built cs : enrollment) (keys : list string) :
  grown_from built keys cs → reads_as built cs.
Proof. intros Hg subj. by eapply grown_from_enrolled_of. Qed.

Lemma reads_as_refl (built : enrollment) : reads_as built built.
Proof. done. Qed.

Lemma reads_as_stored (built cs : enrollment) (c : string) :
  reads_as built cs → reads_as built (stored_by_read cs c).
Proof. intros Hr subj. by rewrite enrolled_of_stored_by_read. Qed.

Lemma grown_from_stored (built cs : enrollment) (keys : list string) (c : string) :
  grown_from built keys cs → c ∈ keys → grown_from built keys (stored_by_read cs c).
Proof.
  intros Hg Hc subj. unfold stored_by_read.
  destruct (cs !! c) as [X|] eqn:HX; [apply Hg|].
  destruct (decide (c = subj)) as [->|Hne].
  - rewrite lookup_insert_eq. destruct (Hg subj) as [Heq|(Hb & Hs & _)].
    + right. rewrite <- Heq, HX. done.
    + congruence.
  - rewrite lookup_insert_ne by done. apply Hg.
Qed.

Section Enrolled.
Context {SO : SetOrder}.

Lemma enrolled_students_stored_by_read (cs : enrollment) (c subj : string) :
  enrolled_students (stored_by_read cs c) subj = enrolled_students cs subj.
Proof. unfold enrolled_students. by rewrite enrolled_of_stored_by_read. Qed.

Lemma enrolled_students_reads_as (built cs : enrollment) (subj : string) :
  reads_as built cs → enrolled_students cs subj = enrolled_students built subj.
Proof. intros Hr. unfold enrolled_students. by rewrite Hr. Qed.

Lemma elem_of_enrolled_students (cs : enrollment) (subj s : string) :
  s ∈ enrolled_students cs subj ↔ s ∈ enrolled_of cs subj.
Proof. unfold enrolled_students. by rewrite set_iter_perm, elem_of_elements. Qed.

Lemma NoDup_enrolled_students (cs : enrollment) (subj : string) :
  NoDup (enrolled_students cs subj).
Proof. unfold enrolled_students. rewrite set_iter_perm. apply NoDup_elements. Qed.

Lemma enrolled_students_empty (cs : enrollment) (subj : string) :
  enrolled_of cs subj = ∅ → enrolled_students cs subj = [].
Proof.
  intros He. unfold enrolled_students. rewrite He.
  apply Permutation_nil_r. rewrite set_iter_perm. by rewrite elements_empty.
Qed.
End Enrolled.

(** ** The tracker *)

Lemma sched_lookup_load (t : schedule) (s d : string)
    (today : list string) :
  sched_lookup t s d = Some today → load t s d = today.
Proof. unfold load. by intros ->. Qed.

Lemma sched_lookup_is_Some (t : schedule) (s d : string) :
  is_Some (t !! s) → sched_lookup t s d = Some (load t s d).
Proof. intros [m Hm]. unfold load, sched_lookup. by rewrite Hm. Qed.

Lemma load_absent (t : schedule) (s d : string) :
  t !! s = None → load t s d = [].
Proof. intros Hn. unfold load, sched_lookup. by rewrite Hn. Qed.

Lemma sched_append_Some (t : schedule) (s d sl : string) :
  is_Some (t !! s) →
  ∃ t', sched_append t s d sl = Some t' ∧
        (∀ s', is_Some (t' !! s') ↔ is_Some (t !! s')) ∧
        (∀ s' d', load t' s' d' =
                  if decide (s' = s ∧ d' = d) then (load t s d ++ [sl])%list
                  else load t s' d').
Proof.
  intros [m Hm]. unfold sched_append. rewrite Hm. simpl. eexists. split; [done|]. split.
  - intros s'. destruct (decide (s = s')) as [->|Hne].
    + rewrite lookup_insert_eq, Hm. split; eauto.
    + by rewrite lookup_insert_ne.
  - intros s' d'. unfold load, sched_lookup.
    destruct (decide (s = s')) as [->|Hne].
    + rewrite lookup_insert_eq, Hm. simpl.
      destruct (decide (d = d')) as [->|Hd].
      * rewrite lookup_insert_eq. simpl. by rewrite decide_True.
      * rewrite lookup_insert_ne by done. rewrite decide_False; [done|]. naive_solver.
    + rewrite lookup_insert_ne by done. rewrite decide_False; [done|]. naive_solver.
Qed.

Lemma update_trackers_Some (students : list string)
    (t : schedule) (d sl : string) :
  covers t students → NoDup students →
  ∃ t', update_trackers t d sl students = Some t' ∧
        (∀ s', is_Some (t' !! s') ↔ is_Some (t !! s')) ∧
        (∀ s' d', load t' s' d' =
                  if decide (s' ∈ students ∧ d' = d) then (load t s' d ++ [sl])%list
                  else load t s' d').
Proof.
  revert t. induction students as [|s rest IH]; intros t Hcov Hnd; simpl.
  - exists t. split; [reflexivity|]. split; [reflexivity|]. intros s' d'.
    reflexivity.
  - apply NoDup_cons in Hnd as [Hs Hnd].
    destruct (sched_append_Some t s d sl) as (t1 & -> & Hdom1 & Hload1).
    { apply Hcov. by left. }
    simpl. destruct (IH t1) as (t' & -> & Hdom & Hload); [|done|].
    { intros s' Hs'. apply Hdom1, Hcov. by right. }
    exists t'. split; [done|]. split.
    { intros s'. by rewrite Hdom, Hdom1. }
    intros s' d'. rewrite Hload, !Hload1.
    repeat case_decide; rewrite ?elem_of_cons in *; destruct_and?; subst;
      try reflexivity; exfalso; intuition congruence.
Qed.

(** ** Evaluation of a candidate slot *)

Lemma penalty_step_contribution (n : nat) : penalty_step n = contribution n.
Proof. unfold penalty_step. by destruct n as [|[|[|n]]]. Qed.

Lemma Zsum_app (l k : list Z) : Zsum (l ++ k) = Zsum l + Zsum k.
Proof. unfold Zsum. induction l as [|x l IH]; simpl; lia. Qed.


(** The student loop stops at the first student who does not let the
    slot through; until then it adds one contribution per student. *)
Lemma eval_students_run (students : list string)
    (t : schedule) (day slot : string) (p : Z) (v : verdict) :
  eval_students t day slot students p = Some v →
  ∃ evaluated rest,
    students = (evaluated ++ rest)%list ∧
    Forall (admits t day slot) evaluated ∧
    penalty v = p + penalty_of t day evaluated ∧
    match rest with
    | [] => clash v = false ∧ daily_limit_reached v = false
    | s :: _ =>
        ¬ admits t day slot s ∧
        clash v = bool_decide (slot ∈ load t s day) ∧
        daily_limit_reached v = negb (clash v)
    end.
Proof.
  revert p. induction students as [|s rest IH]; intros p; simpl.
  - intros [= <-]. exists [], []. unfold penalty_of. simpl. repeat split; [constructor|lia].
  - destruct (sched_lookup t s day) as [today|] eqn:Hl; [|done]. simpl.
    apply sched_lookup_load in Hl. subst today.
    destruct (decide (slot ∈ load t s day)) as [Hin|Hnin].
    { intros [= <-]. exists [], (s :: rest). unfold penalty_of, admits. simpl.
      rewrite bool_decide_eq_true_2 by done.
      repeat split; [constructor|lia|tauto]. }
    destruct (decide (4 ≤ length (load t s day))%nat) as [Hge|Hlt].
    { intros [= <-]. exists [], (s :: rest). unfold penalty_of, admits. simpl.
      rewrite bool_decide_eq_false_2 by done.
      repeat split; [constructor|lia|lia]. }
    intros (evaluated & rest' & -> & Hadm & Hp & Hrest)%IH.
    exists (s :: evaluated), rest'. split; [done|]. split.
    { constructor; [|done]. unfold admits. split; [done|lia]. }
    split; [|done]. rewrite Hp, penalty_step_contribution.
    unfold penalty_of, Zsum. rewrite fmap_cons. simpl. lia.
Qed.

Lemma eval_students_total (students : list string)
    (t : schedule) (day slot : string) (p : Z) :
  covers t students → is_Some (eval_students t day slot students p).
Proof.
  revert p. induction students as [|s rest IH]; intros p Hcov; simpl; [eauto|].
  rewrite (sched_lookup_is_Some t s day) by (apply Hcov; by left). simpl.
  repeat case_decide; eauto. apply IH. intros s' Hs'. apply Hcov. by right.
Qed.

(** A slot is hard-feasible exactly when every enrolled student lets it
    through, and its penalty is then the sum over all of them. *)
Lemma feasible_with_iff (t : schedule)
    (enrolled : list string) (time : string * string) (p : Z) :
  covers t enrolled →
  feasible_with t enrolled time p ↔
  Forall (admits t time.1 time.2) enrolled ∧ p = penalty_of t time.1 enrolled.
Proof.
  intros Hcov. unfold feasible_with, eval_slot.
  destruct (eval_students_total enrolled t time.1 time.2 0 Hcov) as [v Hv].
  rewrite Hv. destruct (eval_students_run _ _ _ _ _ _ Hv)
    as (evaluated & rest & -> & Hadm & Hp & Hrest).
  destruct rest as [|s rest].
  - rewrite app_nil_r in *. destruct Hrest as [Hc Hd].
    destruct v as [c d q]; simpl in *. subst c d. split.
    + intros [= <-]. split; [done|lia].
    + intros [_ ->]. do 2 f_equal. lia.
  - destruct Hrest as (Hn & Hc & Hd). split.
    + intros [= ->]. simpl in *. by destruct (bool_decide _).
    + intros [Hall _]. apply Forall_app in Hall as [_ Hall].
      by apply Forall_cons in Hall as [? _].
Qed.

Lemma rejected_iff (t : schedule)
    (enrolled : list string) (time : string * string) :
  covers t enrolled →
  rejected t enrolled time ↔ ¬ Forall (admits t time.1 time.2) enrolled.
Proof.
  intros Hcov. unfold rejected, eval_slot.
  destruct (eval_students_total enrolled t time.1 time.2 0 Hcov) as [v Hv].
  rewrite Hv. destruct (eval_students_run _ _ _ _ _ _ Hv)
    as (evaluated & rest & -> & Hadm & Hp & Hrest).
  destruct rest as [|s rest].
  - rewrite app_nil_r in *. destruct Hrest as [Hc Hd]. split; [|done].
    intros (v' & [= <-] & [?|?]); congruence.
  - destruct Hrest as (Hn & Hc & Hd). split.
    + intros _ Hall. apply Forall_app in Hall as [_ Hall].
      by apply Forall_cons in Hall as [? _].
    + intros _. exists v. split; [done|]. rewrite Hd. destruct (clash v); auto.
Qed.

(** The same, for a slot whose evaluation did not fail. *)
Lemma feasible_with_admits (t : schedule)
    (enrolled : list string) (time : string * string) (p : Z) :
  is_Some (eval_slot t enrolled time) →
  feasible_with t enrolled time p ↔
  Forall (admits t time.1 time.2) enrolled ∧ p = penalty_of t time.1 enrolled.
Proof.
  intros [v Hv]. unfold feasible_with. unfold eval_slot in *.
  rewrite Hv. destruct (eval_students_run _ _ _ _ _ _ Hv)
    as (evaluated & rest & -> & Hadm & Hp & Hrest).
  destruct rest as [|s rest].
  - rewrite app_nil_r in *. destruct Hrest as [Hc Hd].
    destruct v as [c d q]; simpl in *. subst c d. split.
    + intros [= <-]. split; [done|lia].
    + intros [_ ->]. do 2 f_equal. lia.
  - destruct Hrest as (Hn & Hc & Hd). split.
    + intros [= ->]. simpl in *. by destruct (bool_decide _).
    + intros [Hall _]. apply Forall_app in Hall as [_ Hall].
      by apply Forall_cons in Hall as [? _].
Qed.

(** ** Choice of the best slot *)

(** A scan that ends has evaluated every candidate. *)
Lemma scan_slots_evaluates (t : schedule)
    (enrolled : list string) (available_times : list (string * string))
    (best_time : option (string * string)) (best_penalty : option Z) :
  is_Some (scan_slots t enrolled available_times best_time best_penalty) →
  ∀ time, time ∈ available_times → is_Some (eval_slot t enrolled time).
Proof.
  revert best_time best_penalty.
  induction available_times as [|time rest IH]; intros bt bp Hs time' Hin.
  { by apply elem_of_nil in Hin. }
  simpl in Hs. destruct (eval_slot t enrolled time) as [v|] eqn:Hv.
  - apply elem_of_cons in Hin as [->|Hin]; [by rewrite Hv|].
    simpl in Hs. destruct (_ && _) in Hs; by eapply IH.
  - simpl in Hs. by destruct Hs.
Qed.

Lemma below_best_trans (p q : Z) (best_penalty : option Z) :
  p < q → below_best q best_penalty = true → below_best p best_penalty = true.
Proof.
  destruct best_penalty as [b|]; simpl; [|done].
  rewrite !bool_decide_eq_true. lia.
Qed.

Lemma scan_slots_run (t : schedule)
    (enrolled : list string) (available_times : list (string * string))
    (best_time best_time' : option (string * string)) (best_penalty best_penalty' : option Z) :
  scan_slots t enrolled available_times best_time best_penalty
    = Some (best_time', best_penalty') →
  (best_time' = best_time ∧ best_penalty' = best_penalty ∧
   ∀ time p, time ∈ available_times → feasible_with t enrolled time p →
             below_best p best_penalty = false)
  ∨
  (∃ pre time post p,
     available_times = (pre ++ time :: post)%list ∧
     best_time' = Some time ∧ best_penalty' = Some p ∧
     feasible_with t enrolled time p ∧ below_best p best_penalty = true ∧
     (∀ time' p', time' ∈ pre → feasible_with t enrolled time' p' → p < p') ∧
     (∀ time' p', time' ∈ post → feasible_with t enrolled time' p' → p ≤ p')).
Proof.
  revert best_time best_penalty.
  induction available_times as [|time rest IH]; intros bt bp; simpl.
  - intros [= <- <-]. left. repeat split. by intros ?? ?%elem_of_nil.
  - destruct (eval_slot t enrolled time) as [v|] eqn:Hv; [|done]. simpl.
    destruct (negb (clash v) && negb (daily_limit_reached v) && below_best (penalty v) bp)
      eqn:Hgo.
    + apply andb_prop in Hgo as [[Hc Hd]%andb_prop Hb].
      apply negb_true_iff in Hc, Hd.
      assert (Hf : feasible_with t enrolled time (penalty v)).
      { unfold feasible_with. rewrite Hv. by destruct v; simpl in *; subst. }
      intros [(-> & -> & Hrest)
             |(pre & time' & post & p & -> & -> & -> & Hf' & Hb' & Hpre & Hpost)]%IH;
        right.
      * exists [], time, rest, (penalty v). repeat split; try done.
        { by intros ?? ?%elem_of_nil. }
        intros time' p' Hin Hf'. specialize (Hrest _ _ Hin Hf'). simpl in Hrest.
        apply bool_decide_eq_false in Hrest. lia.
      * simpl in Hb'. apply bool_decide_eq_true in Hb'.
        exists (time :: pre), time', post, p. repeat split; try done.
        { by apply (below_best_trans _ (penalty v)). }
        intros time'' p'' [->|Hin]%elem_of_cons Hf''; [|by eapply Hpre].
        unfold feasible_with in Hf, Hf''. rewrite Hf in Hf''.
        injection Hf'' as <-. lia.
    + intros [(-> & -> & Hrest)
             |(pre & time' & post & p & -> & -> & -> & Hf' & Hb' & Hpre & Hpost)]%IH.
      * left. repeat split.
        intros time' p' [->|Hin]%elem_of_cons Hf'; [|by eapply Hrest].
        unfold feasible_with in Hf'. rewrite Hv in Hf'. injection Hf' as ->.
        by simpl in Hgo.
      * right. exists (time :: pre), time', post, p. repeat split; try done.
        intros time'' p'' [->|Hin]%elem_of_cons Hf''; [|by eapply Hpre].
        unfold feasible_with in Hf''. rewrite Hv in Hf''. injection Hf'' as ->.
        simpl in Hgo. destruct bp as [b|]; simpl in *; [|done].
        apply bool_decide_eq_false in Hgo. apply bool_decide_eq_true in Hb'. lia.
Qed.

Lemma scan_slots_total (t : schedule)
    (enrolled : list string) (available_times : list (string * string))
    (best_time : option (string * string)) (best_penalty : option Z) :
  covers t enrolled →
  is_Some (scan_slots t enrolled available_times best_time best_penalty).
Proof.
  intros Hcov. revert best_time best_penalty.
  induction available_times as [|time rest IH]; intros bt bp; simpl; [eauto|].
  destruct (eval_students_total enrolled t time.1 time.2 0 Hcov) as [v Hv].
  unfold eval_slot. rewrite Hv. simpl. by case_match.
Qed.

(** Entered with no best slot, the scan returns the first slot of the
    candidate order whose penalty is least among the hard-feasible ones,
    and none only if no candidate is hard-feasible. *)
Lemma scan_slots_first_min (t : schedule)
    (enrolled : list string) (available_times : list (string * string))
    (best_time : option (string * string)) (best_penalty : option Z) :
  scan_slots t enrolled available_times None None = Some (best_time, best_penalty) →
  match best_time with
  | None => ∀ time p, time ∈ available_times → ¬ feasible_with t enrolled time p
  | Some time =>
      ∃ pre post p,
        available_times = (pre ++ time :: post)%list ∧ best_penalty = Some p ∧
        feasible_with t enrolled time p ∧
        (∀ time' p', time' ∈ pre → feasible_with t enrolled time' p' → p < p') ∧
        (∀ time' p', time' ∈ available_times → feasible_with t enrolled time' p' → p ≤ p')
  end.
Proof.
  intros [(-> & -> & Hnone)|(pre & time & post & p & -> & -> & -> & Hf & _ & Hpre & Hpost)]
    %scan_slots_run.
  - intros time p Hin Hf. by specialize (Hnone _ _ Hin Hf).
  - exists pre, post, p. repeat split; try done.
    intros time' p' [Hin|[->|Hin]%elem_of_cons]%elem_of_app Hf'.
    + specialize (Hpre _ _ Hin Hf'). lia.
    + unfold feasible_with in Hf, Hf'. rewrite Hf in Hf'. injection Hf' as <-. lia.
    + by eapply Hpost.
Qed.

(** ** Placing one subject *)

Section Placement.
Context {rng : Type} {RS : RandomSource rng} {SO : SetOrder}.

Lemma shuffle_slot_grid (g : rng) (time : string * string) :
  time ∈ (shuffle slot_grid g).1 ↔ time ∈ slot_grid.
Proof. by rewrite shuffle_perm. Qed.

(** What the body of the subject loop does, read off its result. *)
Lemma place_subject_run (ci : list (string * string)) (cs : enrollment)
    (subj : string) (tt tt' : list entry)
    (t t' : schedule) (g g' : rng) (placed : bool) :
  place_subject ci cs subj tt t g = Some (placed, tt', t', g') →
  if placed then
    ∃ pre time post p n,
      (shuffle slot_grid g).1 = (pre ++ time :: post)%list ∧
      feasible_with t (enrolled_students cs subj) time p ∧
      (∀ time' p', time' ∈ pre →
         feasible_with t (enrolled_students cs subj) time' p' → p < p') ∧
      (∀ time' p', time' ∈ slot_grid →
         feasible_with t (enrolled_students cs subj) time' p' → p ≤ p') ∧
      1 ≤ n ≤ 8 ∧
      tt' = (tt ++ [Entry subj (dict_get ci subj "Unknown") time.1 time.2 (room_label n)])%list ∧
      update_trackers t time.1 time.2 (enrolled_students cs subj) = Some t'
  else
    tt' = tt ∧ t' = t ∧ g' = (shuffle slot_grid g).2 ∧
    ∀ time p, time ∈ slot_grid → ¬ feasible_with t (enrolled_students cs subj) time p.
Proof.
  unfold place_subject.
  destruct (shuffle slot_grid g) as [order g1] eqn:Hsh.
  assert (Horder : order ≡ₚ slot_grid).
  { pose proof (shuffle_perm _ slot_grid g) as Hp. by rewrite Hsh in Hp. }
  destruct (scan_slots t (enrolled_students cs subj) order None None)
    as [[best_time best_penalty]|] eqn:Hscan; [|done].
  apply scan_slots_first_min in Hscan. simpl.
  destruct best_time as [[day slot]|].
  - destruct Hscan as (pre & post & p & -> & -> & Hf & Hpre & Hall).
    destruct (randint 1 8 g1) as [n g2] eqn:Hn.
    destruct (update_trackers t day slot (enrolled_students cs subj))
      as [t1|] eqn:Hup; [|done].
    simpl. intros [= <- <- <- <-].
    exists pre, (day, slot), post, p, n. repeat split; try done.
    + intros time' p' Hin. apply Hall. by rewrite Horder.
    + pose proof (randint_range 1 8 g1) as Hr. rewrite Hn in Hr. simpl in Hr. lia.
    + pose proof (randint_range 1 8 g1) as Hr. rewrite Hn in Hr. simpl in Hr. lia.
  - intros [= <- <- <- <-]. repeat split.
    intros time p Hin. apply Hscan. by rewrite Horder.
Qed.

(** The body reads [course_students] under [subj] only. *)
Lemma place_subject_reads (ci : list (string * string)) (cs1 cs2 : enrollment)
    (subj : string) (tt : list entry) (t : schedule) (g : rng) :
  enrolled_of cs1 subj = enrolled_of cs2 subj →
  place_subject ci cs1 subj tt t g = place_subject ci cs2 subj tt t g.
Proof. intros He. unfold place_subject, enrolled_students. by rewrite He. Qed.

(** A body that ends has evaluated every slot of the grid. *)
Lemma place_subject_evaluates (ci : list (string * string)) (cs : enrollment)
    (subj : string) (tt : list entry) (t : schedule) (g : rng) :
  is_Some (place_subject ci cs subj tt t g) →
  ∀ time, time ∈ slot_grid → is_Some (eval_slot t (enrolled_students cs subj) time).
Proof.
  unfold place_subject. intros Hs time Hin.
  pose proof (shuffle_perm _ slot_grid g) as Hperm.
  destruct (shuffle slot_grid g) as [order g1]. simpl in Hperm.
  apply (scan_slots_evaluates t _ order None None); [|by rewrite Hperm].
  destruct (scan_slots t (enrolled_students cs subj) order None None); [eauto|].
  simpl in Hs. by destruct Hs.
Qed.

Lemma place_subject_total (ci : list (string * string)) (cs : enrollment)
    (subj : string) (tt : list entry) (t : schedule)
    (g : rng) :
  covers t (enrolled_students cs subj) →
  is_Some (place_subject ci cs subj tt t g).
Proof.
  intros Hcov. unfold place_subject.
  destruct (shuffle slot_grid g) as [order g1].
  destruct (scan_slots_total t (enrolled_students cs subj) order None None Hcov)
    as [[best_time best_penalty] ->].
  simpl. destruct best_time as [[day slot]|]; [|eauto].
  destruct (randint 1 8 g1) as [n g2].
  destruct (update_trackers_Some (enrolled_students cs subj) t day slot)
    as (t' & -> & _); [done|apply NoDup_enrolled_students|].
  simpl. eauto.
Qed.
End Placement.

(** ** The tracker mirrors the timetable *)

Lemma init_schedule_load (student_df : list row) (s d : string) :
  load (init_schedule student_df) s d = [].
Proof.
  unfold load, sched_lookup, init_schedule.
  induction (unique (row_student_id <$> student_df)) as [|y l IH]; simpl.
  - by rewrite lookup_empty.
  - destruct (decide (y = s)) as [->|Hne].
    + rewrite lookup_insert_eq. simpl. by rewrite lookup_empty.
    + by rewrite lookup_insert_ne.
Qed.

Lemma tracks_init (student_df : list row) :
  tracks student_df [] (init_schedule student_df).
Proof.
  split.
  - intros s Hs. rewrite init_schedule_lookup by done. eauto.
  - intros s d. by rewrite init_schedule_load.
Qed.

Lemma within_limits_nil (student_df : list row) : within_limits student_df [].
Proof. intros s d. unfold classes_on. simpl. split; [constructor|lia]. Qed.

Lemma classes_on_snoc (student_df : list row) (tt : list entry) (e : entry) (s d : string) :
  classes_on student_df (tt ++ [e]) s d =
  (classes_on student_df tt s d ++
     if decide (e_day e = d ∧ enrolls student_df (e_subject e) s) then [e] else [])%list.
Proof.
  unfold classes_on. rewrite filter_app. f_equal.
Qed.

Section Invariant.
Context {rng : Type} {RS : RandomSource rng} {SO : SetOrder}.

Lemma tracks_covers (student_df : list row) (tt : list entry)
    (t : schedule) (subj : string) :
  tracks student_df tt t →
  covers t (enrolled_students (build_course_students student_df) subj).
Proof.
  intros [Hdom _] s Hs. apply Hdom.
  apply elem_of_enrolled_students, elem_of_build_course_students in Hs.
  by eapply enrolls_student_id.
Qed.

(** Placing a subject keeps the tracker in step with the timetable and
    the timetable within the two hard limits. *)
Lemma place_subject_inv (student_df : list row) (ci : list (string * string))
    (subj : string) (tt tt' : list entry)
    (t t' : schedule) (g g' : rng) (placed : bool) :
  tracks student_df tt t → within_limits student_df tt →
  place_subject ci (build_course_students student_df) subj tt t g
    = Some (placed, tt', t', g') →
  tracks student_df tt' t' ∧ within_limits student_df tt'.
Proof.
  intros Htr Hlim Hrun. pose proof (tracks_covers _ _ _ subj Htr) as Hcov.
  apply place_subject_run in Hrun. destruct placed.
  2:{ by destruct Hrun as (-> & -> & _). }
  destruct Hrun as (pre & [day slot] & post & p & n & _ & Hf & _ & _ & _ & -> & Hup).
  simpl in Hup.
  apply feasible_with_iff in Hf as [Hadm _]; [|done]. simpl in Hadm.
  destruct (update_trackers_Some _ t day slot Hcov (NoDup_enrolled_students _ subj))
    as (t1 & Hup' & Hdom & Hload).
  rewrite Hup in Hup'. injection Hup' as <-.
  destruct Htr as [Htdom Htload].
  assert (Hstep : ∀ s d,
    load t' s d = e_slot <$> classes_on student_df
      (tt ++ [Entry subj (dict_get ci subj "Unknown") day slot (room_label n)]) s d).
  { intros s d. rewrite Hload, classes_on_snoc, fmap_app, <- !Htload. simpl.
    pose proof (elem_of_enrolled_students (build_course_students student_df) subj s) as He.
    rewrite elem_of_build_course_students in He.
    repeat case_decide; destruct_and?; subst; simpl;
      rewrite ?app_nil_r; try reflexivity; exfalso; intuition congruence. }
  split; [split|]; [|done|].
  - intros s Hs. by apply Hdom, Htdom.
  - intros s d. destruct (Hlim s d) as [Hnd Hlen].
    rewrite classes_on_snoc. simpl. case_decide as Hc.
    + destruct Hc as [<- Hen].
      assert (Hs : s ∈ enrolled_students (build_course_students student_df) subj).
      { by apply elem_of_enrolled_students, elem_of_build_course_students. }
      rewrite Forall_forall in Hadm. destruct (Hadm s Hs) as [Hnin Hlt].
      rewrite Htload in Hnin, Hlt. rewrite length_fmap in Hlt.
      rewrite fmap_app, length_app. simpl. split; [|lia].
      apply NoDup_app. split; [done|]. split; [|apply NoDup_singleton].
      intros x Hx ->%list_elem_of_singleton. done.
    + by rewrite app_nil_r.
Qed.

Lemma place_subjects_inv (student_df : list row) (ci : list (string * string))
    (cs : enrollment) (subjects : list string) (tt : list entry)
    (t : schedule) (g : rng) :
  reads_as (build_course_students student_df) cs →
  tracks student_df tt t → within_limits student_df tt →
  ∃ success tt' t' cs' g',
    place_subjects ci cs subjects tt t g = Some (success, tt', t', cs', g') ∧
    tracks student_df tt' t' ∧ within_limits student_df tt'.
Proof.
  revert cs tt t g. induction subjects as [|subj rest IH];
    intros cs tt t g Hr Htr Hlim; simpl.
  - by exists true, tt, t, cs, g.
  - pose proof (reads_as_stored _ _ subj Hr) as Hr1.
    rewrite (place_subject_reads ci _ (build_course_students student_df)) by apply Hr1.
    destruct (place_subject_total ci (build_course_students student_df) subj tt t g)
      as [[[[placed tt1] t1] g1] Hrun]; [by eapply tracks_covers|].
    rewrite Hrun. simpl.
    destruct (place_subject_inv _ _ _ _ _ _ _ _ _ _ Htr Hlim Hrun) as [Htr1 Hlim1].
    destruct placed; [by apply IH|].
    by exists false, tt1, t1, (stored_by_read cs subj), g1.
Qed.

(** The reads of the subject loop store keys of its subjects only, and
    leave every set as it is. *)
Lemma place_subjects_grown (ci : list (string * string)) (built cs cs' : enrollment)
    (keys subjects : list string) (tt tt' : list entry)
    (t t' : schedule) (g g' : rng) (success : bool) :
  grown_from built keys cs → (∀ c, c ∈ subjects → c ∈ keys) →
  place_subjects ci cs subjects tt t g = Some (success, tt', t', cs', g') →
  grown_from built keys cs'.
Proof.
  revert cs tt t g. induction subjects as [|subj rest IH];
    intros cs tt t g Hg Hkeys; simpl.
  - by intros [= <- <- <- <- <-].
  - assert (Hg1 : grown_from built keys (stored_by_read cs subj)).
    { apply grown_from_stored; [done|]. apply Hkeys. by left. }
    destruct (place_subject ci (stored_by_read cs subj) subj tt t g)
      as [[[[placed tt1] t1] g1]|]; [|done].
    simpl. destruct placed.
    + apply IH; [done|]. intros c Hc. apply Hkeys. by right.
    + by intros [= <- <- <- <- <-].
Qed.

(** The subject loop places a prefix of its order; it stops short only
    at a subject for which no slot of the grid is hard-feasible. *)
Lemma place_subjects_run (ci : list (string * string)) (cs cs' : enrollment)
    (subjects : list string) (tt tt' : list entry)
    (t t' : schedule) (g g' : rng) (success : bool) :
  place_subjects ci cs subjects tt t g = Some (success, tt', t', cs', g') →
  ∃ pre rest new,
    subjects = (pre ++ rest)%list ∧ tt' = (tt ++ new)%list ∧
    e_subject <$> new = pre ∧ Forall (entry_ok ci) new ∧
    if success then rest = []
    else ∃ c post, rest = c :: post ∧
           ∀ time p, time ∈ slot_grid → ¬ feasible_with t' (enrolled_students cs c) time p.
Proof.
  revert cs tt t g. induction subjects as [|subj rest IH]; intros cs tt t g; simpl.
  - intros [= <- <- <- <- <-]. exists [], [], []. rewrite (app_nil_r tt).
    repeat split; auto.
  - rewrite (place_subject_reads ci _ cs) by apply enrolled_of_stored_by_read.
    destruct (place_subject ci cs subj tt t g) as [[[[placed tt1] t1] g1]|] eqn:Hrun;
      [|done].
    simpl. apply place_subject_run in Hrun. destruct placed.
    + destruct Hrun as (pre & time & post & p & n & Hord & _ & _ & _ & Hn & -> & _).
      intros (pre' & rest' & new & -> & -> & <- & Hok & Hend)%IH.
      eexists (subj :: _), rest', (_ :: new).
      split; [done|]. split; [by rewrite <- app_assoc|]. split; [done|].
      split.
      * constructor; [|done].
        split; [done|]. split; [|by exists n]. simpl.
        rewrite <- (shuffle_slot_grid g), Hord. destruct time. set_solver.
      * destruct success; [done|].
        destruct Hend as (c & post' & -> & Hnone). exists c, post'. split; [done|].
        intros time' p'. rewrite <- (enrolled_students_stored_by_read cs subj c).
        apply Hnone.
    + destruct Hrun as (-> & -> & _ & Hnone). intros [= <- <- <- <- <-].
      exists [], (subj :: rest), []. rewrite app_nil_r. repeat split; [constructor|].
      by exists subj, rest.
Qed.

(** The keys of the index after the subject loop: those it had, and
    those of the subjects the loop has reached. *)
Lemma place_subjects_keys (ci : list (string * string)) (cs cs' : enrollment)
    (subjects : list string) (tt tt' : list entry)
    (t t' : schedule) (g g' : rng) (success : bool) :
  place_subjects ci cs subjects tt t g = Some (success, tt', t', cs', g') →
  (∀ c, is_Some (cs !! c) → cs' !! c = cs !! c) ∧
  (∀ e, e ∈ tt' → e ∈ tt ∨ is_Some (cs' !! e_subject e)) ∧
  (success = true → ∀ c, c ∈ subjects → is_Some (cs' !! c)).
Proof.
  revert cs tt t g. induction subjects as [|subj rest IH]; intros cs tt t g; simpl.
  - intros [= <- <- <- <- <-]. split; [done|]. split; [by left|].
    by intros _ c ?%elem_of_nil.
  - destruct (place_subject ci (stored_by_read cs subj) subj tt t g)
      as [[[[placed tt1] t1] g1]|] eqn:Hrun; [|done].
    simpl. apply place_subject_run in Hrun. destruct placed.
    + destruct Hrun as (pre & time & post & p & n & _ & _ & _ & _ & _ & -> & _).
      intros (Hkeep & Htt & Hall)%IH. split; [|split].
      * intros c Hc. rewrite Hkeep; [by apply stored_by_read_keeps|].
        by rewrite stored_by_read_keeps.
      * intros e [[He| ->%list_elem_of_singleton]%elem_of_app|He]%Htt;
          [by left| |by right].
        right. simpl. rewrite Hkeep by apply stored_by_read_lookup.
        apply stored_by_read_lookup.
      * intros Hs c [->|Hc]%elem_of_cons; [|by apply Hall].
        rewrite Hkeep by apply stored_by_read_lookup. apply stored_by_read_lookup.
    + destruct Hrun as (-> & -> & _). intros [= <- <- <- <- <-].
      split; [|split]; [|by left|done].
      intros c Hc. by apply stored_by_read_keeps.
Qed.
End Invariant.

(** ** Attempts *)

Section AttemptFacts.
Context {rng : Type} {RS : RandomSource rng} {SO : SetOrder}.

Lemma attempt_body_run (student_df : list row) (course_info : list (string * string))
    (k : nat) (env : solver_env rng) :
  env_ok student_df course_info env →
  ∃ vars env',
    attempt_body k env = Some (vars, env') ∧
    env_ok student_df course_info env' ∧ var_attempt vars = k ∧
    attempt_ok student_df course_info vars env'.
Proof.
  intros (Hdf & Hci & Hcs & Hperm). unfold attempt_body.
  destruct (shuffle (env_all_subjects env) (env_random env)) as [order g1] eqn:Hsh.
  assert (Horder : order ≡ₚ env_all_subjects env).
  { pose proof (shuffle_perm _ (env_all_subjects env) (env_random env)) as Hp.
    by rewrite Hsh in Hp. }
  rewrite Hdf, Hci. pose proof (grown_from_reads_as _ _ _ Hcs) as Hr.
  destruct (place_subjects_inv student_df course_info
              (env_course_students env) order [] (init_schedule student_df) g1)
    as (success & tt & t & cs' & g2 & Hrun & Htr & Hlim);
    [done|apply tracks_init|apply within_limits_nil|].
  assert (Hcs' : grown_from (build_course_students student_df) (dict_keys course_info) cs').
  { eapply place_subjects_grown; [exact Hcs| |exact Hrun].
    intros c Hc. by rewrite <- Hperm, <- Horder. }
  rewrite Hrun. simpl. eexists _, _. split; [done|].
  split. { repeat split; simpl; try done. by rewrite Horder. }
  split; [done|].
  apply place_subjects_run in Hrun
    as (pre & rest & new & -> & -> & <- & Hok & Hend).
  split; [done|]. split; [done|]. split; [done|]. simpl.
  exists rest. split; [done|]. destruct success; [done|].
  destruct Hend as (c & post & -> & Hnone). exists c, post. split; [done|].
  rewrite (enrolled_students_reads_as _ _ c Hr) in Hnone.
  intros time Hin. apply rejected_iff; [by eapply tracks_covers|].
  intros Hall.
  apply (Hnone time (penalty_of t time.1
           (enrolled_students (build_course_students student_df) c)) Hin).
  apply feasible_with_iff; [by eapply tracks_covers|]. done.
Qed.

Lemma attempt_ok_outcome (student_df : list row) (course_info : list (string * string))
    (vars : attempt_vars) (env' : solver_env rng) :
  env_ok student_df course_info env' → attempt_ok student_df course_info vars env' →
  attempt_outcome student_df course_info vars env'.
Proof.
  intros (_ & _ & _ & Hperm) (Htr & _ & _ & rest & Hsub & Hrest).
  split; [done|]. split; [done|]. exists rest. split; [done|].
  destruct (var_success vars); [done|].
  destruct Hrest as (c & post & -> & Hrej). exists c, post. split; [done|].
  intros time Hin. specialize (Hrej time Hin).
  apply rejected_iff in Hrej; [|by eapply tracks_covers].
  apply not_Forall_Exists in Hrej; [|apply _].
  apply Exists_exists in Hrej as (s & Hs & Hn). exists s. split; [|done].
  by apply elem_of_enrolled_students, elem_of_build_course_students in Hs.
Qed.

(** The keys of the index after an attempt. *)
Lemma attempt_body_keys (k : nat) (env env' : solver_env rng) (vars : attempt_vars) :
  attempt_body k env = Some (vars, env') →
  (∀ e, e ∈ var_timetable vars → is_Some (env_course_students env' !! e_subject e)) ∧
  (var_success vars = true →
   ∀ c, c ∈ env_all_subjects env' → is_Some (env_course_students env' !! c)).
Proof.
  unfold attempt_body.
  destruct (shuffle (env_all_subjects env) (env_random env)) as [order g1].
  destruct (place_subjects _ _ order [] _ g1) as [[[[[success tt] t] cs'] g2]|] eqn:Hrun;
    [|done].
  simpl. intros [= <- <-]. simpl.
  apply place_subjects_keys in Hrun as (_ & Htt & Hall). split; [|done].
  intros e He. destruct (Htt e He) as [Hnil|?]; [by apply elem_of_nil in Hnil|done].
Qed.

Lemma init_env_ok (student_df : list row) (course_info : list (string * string))
    (g : rng) :
  env_ok student_df course_info (init_env student_df course_info g).
Proof. split; [done|]. split; [done|]. split; [apply grown_from_refl|done]. Qed.

Lemma env_before_ok (student_df : list row) (course_info : list (string * string))
    (g : rng) (k : nat) :
  ∃ env, env_before student_df course_info g k = Some env ∧
         env_ok student_df course_info env.
Proof.
  induction k as [|k (env & Hk & Hok)]; simpl.
  - eexists. split; [done|]. apply init_env_ok.
  - rewrite Hk. simpl.
    destruct (attempt_body_run _ _ k env Hok) as (vars & env' & -> & Hok' & _).
    simpl. by exists env'.
Qed.

Lemma nth_attempt_run (student_df : list row) (course_info : list (string * string))
    (g : rng) (k : nat) :
  ∃ vars env',
    nth_attempt student_df course_info g k = Some (vars, env') ∧
    env_ok student_df course_info env' ∧ var_attempt vars = k ∧
    attempt_ok student_df course_info vars env'.
Proof.
  unfold nth_attempt.
  destruct (env_before_ok student_df course_info g k) as (env & -> & Hok). simpl.
  destruct (attempt_body_run _ _ k env Hok) as (vars & env' & -> & ? & ? & ?).
  by exists vars, env'.
Qed.

(** The main loop runs attempts in turn until one succeeds or none is
    left. *)
Lemma for_attempts_run (student_df : list row) (course_info : list (string * string))
    (g : rng) (remaining k : nat) (env : solver_env rng) (last : option attempt_vars) :
  env_before student_df course_info g k = Some env →
  ∃ r env',
    for_attempts remaining k env last = Some (r, env') ∧
    ((remaining = 0%nat ∧ r = last ∧ env' = env) ∨
     ∃ j vars,
       (k ≤ j < k + remaining)%nat ∧ r = Some vars ∧
       nth_attempt student_df course_info g j = Some (vars, env') ∧
       (∀ i, (k ≤ i < j)%nat →
          ∃ vi ei, nth_attempt student_df course_info g i = Some (vi, ei) ∧
                   var_success vi = false) ∧
       (var_success vars = true ∨ j = (k + remaining - 1)%nat)).
Proof.
  revert k env last. induction remaining as [|n IH]; intros k env last Hk; simpl.
  - exists last, env. split; [done|]. by left.
  - destruct (env_before_ok student_df course_info g k) as (env0 & Hk0 & Hok).
    rewrite Hk in Hk0. injection Hk0 as <-.
    destruct (attempt_body_run _ _ k env Hok) as (vars & env1 & Hbody & _).
    assert (Hnth : nth_attempt student_df course_info g k = Some (vars, env1)).
    { unfold nth_attempt. rewrite Hk. done. }
    rewrite Hbody. simpl. destruct (var_success vars) eqn:Hs.
    + exists (Some vars), env1. split; [done|]. right. exists k, vars.
      split; [lia|]. split; [done|]. split; [done|]. split; [|by left].
      intros i Hi. lia.
    + destruct (IH (S k) env1 (Some vars)) as (r & env' & Hfor & Hcase).
      { simpl. rewrite Hk. simpl. rewrite Hbody. done. }
      exists r, env'. split; [done|]. right.
      destruct Hcase as [(-> & -> & ->)|(j & vj & Hj & -> & Hnj & Hprev & Hlast)].
      * exists k, vars.
        split; [lia|]. split; [done|]. split; [done|]. split; [|right; lia].
        intros i Hi. lia.
      * exists j, vj.
        split; [lia|]. split; [done|]. split; [done|]. split.
        -- intros i Hi. destruct (decide (i = k)) as [->|Hne].
           ++ by exists vars, env1.
           ++ apply Hprev. lia.
        -- destruct Hlast as [?| ->]; [by left|right; lia].
Qed.

(** A call returns the outcome of the first successful attempt among
    the attempts 0 to 99, or of attempt 99 when none succeeds. *)
Lemma run_solver_run (student_df : list row) (course_info : list (string * string))
    (g : rng) :
  ∃ vars env',
    run_solver student_df course_info g = Some (vars, env') ∧
    (var_attempt vars < 100)%nat ∧
    nth_attempt student_df course_info g (var_attempt vars) = Some (vars, env') ∧
    (∀ i, (i < var_attempt vars)%nat →
       ∃ vi ei, nth_attempt student_df course_info g i = Some (vi, ei) ∧
                var_success vi = false) ∧
    (var_success vars = true ∨ var_attempt vars = 99%nat) ∧
    env_ok student_df course_info env' ∧
    attempt_ok student_df course_info vars env'.
Proof.
  unfold run_solver.
  destruct (for_attempts_run student_df course_info g 100 0
              (init_env student_df course_info g) None)
    as (r & env' & -> & [(? & _)|(j & vars & Hj & -> & Hnth & Hprev & Hlast)]);
    [done|done|].
  simpl. exists vars, env'. split; [done|].
  destruct (nth_attempt_run student_df course_info g j)
    as (vars' & env'' & Hnth' & Hok & Hatt & Hfacts).
  rewrite Hnth in Hnth'. injection Hnth' as <- <-. rewrite Hatt.
  split; [lia|]. split; [done|]. split; [|split; [|done]].
  - intros i Hi. apply Hprev. lia.
  - destruct Hlast as [?|?]; [by left|right; lia].
Qed.
End AttemptFacts.

(** ** Independence from the iteration order of sets *)








Section TwoOrders.
Context {rng : Type} {RS : RandomSource rng}.
Variables SO1 SO2 : SetOrder.









End TwoOrders.

(** ** Counting classes *)

Lemma classes_at_filter (student_df : list row) (tt : list entry) (s d sl : string) :
  classes_at student_df tt s d sl =
  filter (λ e, e_slot e = sl) (classes_on student_df tt s d).
Proof.
  unfold classes_at, classes_on. induction tt as [|e tt IH]; [done|].
  rewrite !filter_cons. rewrite IH.
  repeat case_decide; rewrite ?filter_cons; repeat case_decide;
    try reflexivity; exfalso; intuition congruence.
Qed.

Lemma NoDup_fmap_filter_length {A B : Type} `{EqDecision B} (f : A → B) (y : B)
    (l : list A) :
  NoDup (f <$> l) → (length (filter (λ x, f x = y) l) ≤ 1)%nat.
Proof.
  induction l as [|x l IH]; simpl; [lia|].
  intros [Hx Hnd]%NoDup_cons. rewrite filter_cons. case_decide as Hy; [|by apply IH].
  simpl. assert (Hnil : filter (λ x0, f x0 = y) l = []); [|rewrite Hnil; simpl; lia].
  destruct (filter (λ x0, f x0 = y) l) as [|z k] eqn:Hf; [done|].
  assert (Hz : z ∈ filter (λ x0, f x0 = y) l) by (rewrite Hf; by left).
  apply list_elem_of_filter in Hz as [Hfz Hz]. exfalso. apply Hx.
  rewrite Hy, <- Hfz. by apply list_elem_of_fmap_2.
Qed.

Lemma filter_two {A : Type} (P : A → Prop) `{∀ x, Decision (P x)} (l : list A)
    (i j : nat) (x y : A) :
  (i < j)%nat → l !! i = Some x → l !! j = Some y → P x → P y →
  (2 ≤ length (filter P l))%nat.
Proof.
  revert i j. induction l as [|z l IH]; intros i j Hij Hi Hj Px Py; [done|].
  destruct j as [|j]; [lia|]. simpl in Hj. destruct i as [|i]; simpl in Hi.
  - injection Hi as ->. rewrite filter_cons_True by done. simpl.
    assert (Hy : y ∈ filter P l).
    { apply list_elem_of_filter. split; [done|]. by eapply list_elem_of_lookup_2. }
    destruct (filter P l); [by apply elem_of_nil in Hy|simpl; lia].
  - assert (Hlt : (i < j)%nat) by lia.
    specialize (IH i j Hlt Hi Hj Px Py).
    rewrite filter_cons. case_decide; simpl; lia.
Qed.

Lemma length_remove_dups (l : list string) : (length (remove_dups l) ≤ length l)%nat.
Proof. induction l as [|x l IH]; simpl; [lia|]. case_decide; simpl; lia. Qed.

(** ** Independence from the order of the rows *)

Lemma foldl_add_enrollment_nonempty (student_df : list row)
    (cs : enrollment) :
  (∀ subj X, cs !! subj = Some X → X ≠ ∅) →
  ∀ subj X, foldl add_enrollment cs student_df !! subj = Some X → X ≠ ∅.
Proof.
  revert cs. induction student_df as [|r df IH]; intros cs Hcs; simpl; [done|].
  apply IH. intros subj X. unfold add_enrollment.
  destruct (decide (row_subject r = subj)) as [->|Hne].
  - rewrite lookup_insert_eq. intros [= <-]. set_solver.
  - rewrite lookup_insert_ne by done. apply Hcs.
Qed.





Section TwoFrames.
Context {rng : Type} {RS : RandomSource rng} {SO : SetOrder}.



End TwoFrames.

(** * Main results *)

Section Claims.
Context {rng : Type} {RS : RandomSource rng} {SO : SetOrder}.

(** A call always reaches a [return]: no lookup of [student_schedule]
    fails, so the model never yields [None]. *)
Lemma run_solver_total (student_df : list row) (course_info : list (string * string))
    (g : rng) :
  is_Some (run_solver student_df course_info g).
Proof. destruct (run_solver_run student_df course_info g) as (? & ? & -> & _). eauto. Qed.

(** The timetable a call returns, complete or not, respects both hard
    limits. *)
Lemma returned_within_limits (student_df : list row)
    (course_info : list (string * string)) (g : rng)
    (vars : attempt_vars) (env' : solver_env rng) :
  run_solver student_df course_info g = Some (vars, env') →
  within_limits student_df (var_timetable vars).
Proof.
  intros Hrun.
  destruct (run_solver_run student_df course_info g)
    as (vars' & env'' & Hrun' & _ & _ & _ & _ & _ & _ & Hlim & _).
  rewrite Hrun in Hrun'. by injection Hrun' as <- <-.
Qed.

(** C1 (clash-freedom).  In the timetable returned from a successful
    attempt, for every student, day and slot, at most one record puts a
    course of that student in that slot of that day; so no two records
    for courses that share an enrolled student have the same day and
    slot. *)
Theorem clash_free (student_df : list row) (course_info : list (string * string))
    (g : rng) (vars : attempt_vars) (env' : solver_env rng) :
  run_solver student_df course_info g = Some (vars, env') →
  var_success vars = true →
  (∀ s d sl, (length (classes_at student_df (var_timetable vars) s d sl) ≤ 1)%nat) ∧
  (∀ i j e1 e2 s,
     i ≠ j → var_timetable vars !! i = Some e1 → var_timetable vars !! j = Some e2 →
     enrolls student_df (e_subject e1) s → enrolls student_df (e_subject e2) s →
     (e_day e1, e_slot e1) ≠ (e_day e2, e_slot e2)).
Proof.
  intros Hrun _.
  assert (Hone : ∀ s d sl,
    (length (classes_at student_df (var_timetable vars) s d sl) ≤ 1)%nat).
  { intros s d sl. rewrite classes_at_filter. apply NoDup_fmap_filter_length.
    by destruct (returned_within_limits _ _ _ _ _ Hrun s d). }
  split; [done|].
  intros i j e1 e2 s Hij H1 H2 Hs1 Hs2 [= Hd Hsl].
  specialize (Hone s (e_day e1) (e_slot e1)). unfold classes_at in Hone.
  set (P := λ e : entry,
         e_day e = e_day e1 ∧ e_slot e = e_slot e1 ∧ enrolls student_df (e_subject e) s)
    in Hone.
  assert (P1 : P e1) by (by repeat split).
  assert (P2 : P e2) by (by repeat split).
  destruct (decide (i < j)%nat) as [Hlt|Hge].
  - pose proof (filter_two P _ i j e1 e2 Hlt H1 H2 P1 P2). lia.
  - assert (Hlt : (j < i)%nat) by lia.
    pose proof (filter_two P _ j i e2 e1 Hlt H2 H1 P2 P1). lia.
Qed.

(** C2 (daily cap).  In the timetable returned from a successful
    attempt, for every student and day, the student has at most four
    classes that day, hence occupies at most four slots. *)
Theorem daily_cap (student_df : list row) (course_info : list (string * string))
    (g : rng) (vars : attempt_vars) (env' : solver_env rng) (s d : string) :
  run_solver student_df course_info g = Some (vars, env') →
  var_success vars = true →
  (length (occupied_slots student_df (var_timetable vars) s d) ≤ 4)%nat ∧
  (length (classes_on student_df (var_timetable vars) s d) ≤ 4)%nat.
Proof.
  intros Hrun _. destruct (returned_within_limits _ _ _ _ _ Hrun s d) as [_ Hlen].
  split; [|done]. unfold occupied_slots.
  etrans; [apply length_remove_dups|]. by rewrite length_fmap.
Qed.

(** C3 (penalty of a slot).  The penalty accumulated for a candidate
    slot is the sum, over the enrolled students the loop evaluates
    without a hard-constraint skip, of -1000, -500, +100 or +500
    according to whether the student has 0, 1, 2 or at least 3 classes
    that day; these students are all the enrolled ones when the slot is
    hard-feasible, and otherwise those met before the first student
    who triggers a skip. *)
Theorem slot_penalty_sum (student_schedule : schedule)
    (enrolled : list string) (time : string * string) (v : verdict) :
  eval_slot student_schedule enrolled time = Some v →
  ∃ evaluated rest,
    enrolled = (evaluated ++ rest)%list ∧
    Forall (admits student_schedule time.1 time.2) evaluated ∧
    penalty v =
      Zsum ((λ s, contribution (length (load student_schedule s time.1))) <$> evaluated) ∧
    match rest with
    | [] => clash v = false ∧ daily_limit_reached v = false
    | s :: _ =>
        ¬ admits student_schedule time.1 time.2 s ∧
        (clash v = true ∨ daily_limit_reached v = true)
    end.
Proof.
  unfold eval_slot.
  intros (evaluated & rest & -> & Hadm & Hp & Hrest)%eval_students_run.
  exists evaluated, rest. split; [done|]. split; [done|]. split.
  { rewrite Hp. unfold penalty_of. lia. }
  destruct rest as [|s rest]; [done|].
  destruct Hrest as (Hn & Hc & Hd). split; [done|].
  rewrite Hd. destruct (clash v); auto.
Qed.

(** C4 (choice by score).  A slot is hard-feasible for a course when
    every enrolled student lets it through: the student has no class in
    that slot of that day and fewer than four classes that day; its
    penalty is the sum of the students' contributions.  When the body of
    the subject loop places a course, the slot it records is
    hard-feasible, no hard-feasible slot has a smaller penalty, and
    every hard-feasible slot before it in the shuffled candidate order
    has a strictly larger penalty; it leaves a course unplaced only if
    no slot is hard-feasible. *)
Theorem chosen_slot_first_min (course_info : list (string * string))
    (course_students : enrollment) (subj : string)
    (timetable timetable' : list entry)
    (student_schedule student_schedule' : schedule)
    (g g' : rng) (placed : bool) :
  place_subject course_info course_students subj timetable student_schedule g
    = Some (placed, timetable', student_schedule', g') →
  let enrolled := enrolled_students course_students subj in
  let available_times := (shuffle slot_grid g).1 in
  let hard_feasible (time : string * string) :=
    Forall (admits student_schedule time.1 time.2) enrolled in
  let score (time : string * string) := penalty_of student_schedule time.1 enrolled in
  if placed then
    ∃ pre time post room,
      available_times = (pre ++ time :: post)%list ∧
      timetable' =
        (timetable ++
           [Entry subj (dict_get course_info subj "Unknown") time.1 time.2 room])%list ∧
      hard_feasible time ∧
      (∀ time', time' ∈ pre → hard_feasible time' → score time < score time') ∧
      (∀ time', time' ∈ available_times → hard_feasible time' → score time ≤ score time')
  else
    timetable' = timetable ∧
    ∀ time, time ∈ available_times → ¬ hard_feasible time.
Proof.
  intros Hrun.
  assert (Hev : ∀ time, time ∈ slot_grid →
            is_Some (eval_slot student_schedule
                       (enrolled_students course_students subj) time)).
  { apply (place_subject_evaluates course_info _ _ timetable _ g). rewrite Hrun. eauto. }
  assert (Hgrid : ∀ time pre post,
            (shuffle slot_grid g).1 = (pre ++ time :: post)%list →
            (∀ time', time' ∈ pre → time' ∈ slot_grid) ∧ time ∈ slot_grid).
  { intros time pre post Hord. split.
    - intros time' Hin. apply (shuffle_slot_grid g). rewrite Hord. set_solver.
    - apply (shuffle_slot_grid g). rewrite Hord. set_solver. }
  apply place_subject_run in Hrun. simpl. destruct placed.
  - destruct Hrun as (pre & time & post & p & n & Hord & Hf & Hpre & Hall & _ & -> & _).
    destruct (Hgrid time pre post Hord) as [Hpre_in Htime].
    apply feasible_with_admits in Hf as [Hadm ->]; [|by apply Hev].
    exists pre, time, post, (room_label n).
    split; [done|]. split; [done|]. split; [done|]. split.
    + intros time' Hin Hadm'. apply (Hpre time' _ Hin).
      apply feasible_with_admits; [by apply Hev, Hpre_in|done].
    + intros time' Hin Hadm'. apply shuffle_slot_grid in Hin.
      apply (Hall time' _ Hin). apply feasible_with_admits; [by apply Hev|done].
  - destruct Hrun as (-> & _ & _ & Hnone). split; [done|].
    intros time Hin Hadm. apply shuffle_slot_grid in Hin.
    apply (Hnone time (penalty_of student_schedule time.1
                         (enrolled_students course_students subj)) Hin).
    apply feasible_with_admits; [by apply Hev|done].
Qed.

(** C5 (restart budget).  A call runs at most 100 attempts, numbered 0
    to 99, each on an arrangement of the catalog's courses: it returns
    the timetable of the first attempt that places every course of the
    catalog, every earlier attempt having stopped short of that, and
    the timetable of attempt 99 if none does.  The timetable of an
    attempt that fails holds the courses of the attempt's arrangement up
    to, and without, the first one for which every slot of the grid has
    an enrolled student with a class in that slot or with four classes
    that day. *)
Theorem restart_budget (student_df : list row) (course_info : list (string * string))
    (g : rng) :
  ∃ vars env',
    run_solver student_df course_info g = Some (vars, env') ∧
    generate_timetable student_df course_info g = Some (var_timetable vars) ∧
    (var_attempt vars < 100)%nat ∧
    nth_attempt student_df course_info g (var_attempt vars) = Some (vars, env') ∧
    attempt_outcome student_df course_info vars env' ∧
    (∀ i, (i < var_attempt vars)%nat →
       ∃ vi ei, nth_attempt student_df course_info g i = Some (vi, ei) ∧
                var_success vi = false ∧
                attempt_outcome student_df course_info vi ei) ∧
    (var_success vars = true ∨ var_attempt vars = 99%nat) ∧
    (var_success vars = true ↔
     e_subject <$> var_timetable vars ≡ₚ dict_keys course_info).
Proof.
  destruct (run_solver_run student_df course_info g)
    as (vars & env' & Hrun & Hlt & Hnth & Hprev & Hlast & Hok & Hatt).
  pose proof (attempt_ok_outcome _ _ _ _ Hok Hatt) as Hout.
  exists vars, env'. unfold generate_timetable. rewrite Hrun.
  split; [done|]. split; [done|]. split; [done|]. split; [done|]. split; [done|].
  split; [|split; [done|]].
  - intros i Hi. destruct (Hprev i Hi) as (vi & ei & Hi' & Hf).
    exists vi, ei. split; [done|]. split; [done|].
    destruct (nth_attempt_run student_df course_info g i)
      as (vi' & ei' & Hi'' & Hoki & _ & Hatti).
    rewrite Hi' in Hi''. injection Hi'' as <- <-. by apply attempt_ok_outcome.
  - destruct Hout as (Hperm & _ & rest & Hsub & Hrest).
    destruct (var_success vars).
    + subst rest. rewrite app_nil_r in Hsub. by rewrite <- Hsub.
    + destruct Hrest as (c & post & -> & _). split; [done|].
      intros Hall. rewrite Hsub in Hperm. rewrite Hall in Hperm.
      apply Permutation_length in Hperm. rewrite length_app in Hperm.
      simpl in Hperm. lia.
Qed.

(** C6, as amended.  What a call returns is the list of records alone,
    each with its subject, the instructor the catalog gives for it, a
    slot of the grid and a room label CR-1 to CR-8; the list holds
    every course exactly when it has as many records as the catalog has
    courses. *)
Theorem records_only (student_df : list row) (course_info : list (string * string))
    (g : rng) :
  ∃ vars env',
    run_solver student_df course_info g = Some (vars, env') ∧
    generate_timetable student_df course_info g = Some (var_timetable vars) ∧
    Forall (entry_ok course_info) (var_timetable vars) ∧
    (var_success vars = true ↔ length (var_timetable vars) = length course_info).
Proof.
  destruct (run_solver_run student_df course_info g)
    as (vars & env' & Hrun & _ & _ & _ & _ & Hok & _ & _ & Hent & rest & Hsub & Hrest).
  exists vars, env'. unfold generate_timetable. rewrite Hrun.
  split; [done|]. split; [done|]. split; [done|].
  destruct Hok as (_ & _ & _ & Hperm).
  apply Permutation_length in Hperm. unfold dict_keys in Hperm.
  rewrite Hsub, length_app, !length_fmap in Hperm.
  destruct (var_success vars).
  - subst rest. simpl in Hperm. split; [lia|done].
  - destruct Hrest as (c & post & -> & _). simpl in Hperm. split; [done|lia].
Qed.

(** C8 (each course once).  For a catalog whose keys are distinct, as
    those of a dict are, no subject occurs twice in the returned
    timetable, every record is for a subject of the catalog and holds
    one slot of the grid, and after a successful attempt the recorded
    subjects are exactly those of the catalog. *)
Theorem each_course_once (student_df : list row) (course_info : list (string * string))
    (g : rng) :
  NoDup (dict_keys course_info) →
  ∃ vars env',
    run_solver student_df course_info g = Some (vars, env') ∧
    NoDup (e_subject <$> var_timetable vars) ∧
    (∀ e, e ∈ var_timetable vars →
       e_subject e ∈ dict_keys course_info ∧ (e_day e, e_slot e) ∈ slot_grid) ∧
    (var_success vars = true →
       e_subject <$> var_timetable vars ≡ₚ dict_keys course_info).
Proof.
  intros Hnd.
  destruct (run_solver_run student_df course_info g)
    as (vars & env' & Hrun & _ & _ & _ & _ & Hok & _ & _ & Hent & rest & Hsub & Hrest).
  exists vars, env'. split; [done|].
  destruct Hok as (_ & _ & _ & Hperm). rewrite Hsub in Hperm.
  split; [|split].
  - rewrite <- Hperm in Hnd. by apply NoDup_app in Hnd as [? _].
  - intros e He. split.
    + rewrite <- Hperm. apply elem_of_app. left. by apply list_elem_of_fmap_2.
    + rewrite Forall_forall in Hent. by destruct (Hent e He) as (_ & ? & _).
  - intros Hs. rewrite Hs in Hrest. subst rest. by rewrite app_nil_r in Hperm.
Qed.

(** C9, as amended.  A call does not write to its two arguments: when
    it returns, and before each attempt, the frame and the catalog are
    the objects that were passed.  The enrollment index, which the call
    builds itself, is written by the read of line 81: every key the
    build gave keeps its set, every course reads the same set of
    enrolled students as after the build, and a key that is new is a
    course of the catalog without a row in the frame and holds the empty
    set; the course of every returned record is a key, and after a
    success the keys are those of the build together with all the
    courses of the catalog. *)
Theorem inputs_unchanged (student_df : list row) (course_info : list (string * string))
    (g : rng) :
  (∃ vars env',
     run_solver student_df course_info g = Some (vars, env') ∧
     env_student_df env' = student_df ∧ env_course_info env' = course_info ∧
     grown_from (build_course_students student_df) (dict_keys course_info)
       (env_course_students env') ∧
     (∀ subj, enrolled_of (env_course_students env') subj =
              enrolled_of (build_course_students student_df) subj) ∧
     (∀ e, e ∈ var_timetable vars →
           is_Some (env_course_students env' !! e_subject e)) ∧
     (var_success vars = true →
      ∀ subj, is_Some (env_course_students env' !! subj) ↔
              is_Some (build_course_students student_df !! subj) ∨
              subj ∈ dict_keys course_info)) ∧
  (∀ k, ∃ env,
     env_before student_df course_info g k = Some env ∧
     env_student_df env = student_df ∧ env_course_info env = course_info ∧
     grown_from (build_course_students student_df) (dict_keys course_info)
       (env_course_students env) ∧
     ∀ subj, enrolled_of (env_course_students env) subj =
             enrolled_of (build_course_students student_df) subj).
Proof.
  split.
  - destruct (run_solver_run student_df course_info g)
      as (vars & env' & Hrun & _ & Hnth & _ & _ & (Hdf & Hci & Hcs & Hperm) & _).
    exists vars, env'. split; [done|]. split; [done|]. split; [done|]. split; [done|].
    split. { intros subj. by eapply grown_from_enrolled_of. }
    unfold nth_attempt in Hnth.
    destruct (env_before student_df course_info g (var_attempt vars)) as [env|];
      [|done].
    simpl in Hnth. apply attempt_body_keys in Hnth as [Htt Hall]. split; [done|].
    intros Hs subj. split.
    + intros Hsome. destruct (Hcs subj) as [<-|(_ & _ & Hin)]; [by left|by right].
    + intros [Hb|Hin].
      * destruct (Hcs subj) as [->|(Hn & _)]; [done|]. rewrite Hn in Hb. by destruct Hb.
      * apply (Hall Hs). by rewrite Hperm.
  - intros k. destruct (env_before_ok student_df course_info g k)
      as (env & Hk & Hdf & Hci & Hcs & _).
    exists env. split; [done|]. split; [done|]. split; [done|]. split; [done|].
    intros subj. by eapply grown_from_enrolled_of.
Qed.


End Claims.


(** * The results on sample inputs *)

(** The computed results are those of the runs. *)
Lemma demo_run_eq :
  run_solver (RS:=lcg_source) (SO:=elements_order) demo_df demo_info 7 = demo_run.
Proof. vm_cast_no_check (eq_refl demo_run). Qed.

Lemma six_run_eq :
  run_solver (RS:=lcg_source) (SO:=reverse_order) (one_student 6) (catalog 6) 3 = six_run.
Proof. vm_cast_no_check (eq_refl six_run). Qed.

Lemma stats_step_eq :
  place_subject (RS:=still_source) (SO:=elements_order) demo_info
    (build_course_students demo_df) "Stats" [] demo_tracker tt = stats_step.
Proof. vm_cast_no_check (eq_refl stats_step). Qed.

(** C1 on the sample frame: the run succeeds, and its timetable is free of
    clashes. *)
Lemma clash_free_witness :
  ∃ vars env',
    run_solver (RS:=lcg_source) (SO:=elements_order) demo_df demo_info 7
      = Some (vars, env') ∧
    var_success vars = true ∧
    (∀ s d sl, (length (classes_at demo_df (var_timetable vars) s d sl) ≤ 1)%nat) ∧
    (∀ i j e1 e2 s,
       i ≠ j → var_timetable vars !! i = Some e1 → var_timetable vars !! j = Some e2 →
       enrolls demo_df (e_subject e1) s → enrolls demo_df (e_subject e2) s →
       (e_day e1, e_slot e1) ≠ (e_day e2, e_slot e2)).
Proof.
  pose proof demo_run_eq as Hrun. unfold demo_run in Hrun.
  eexists _, _. split; [exact Hrun|]. split; [reflexivity|].
  exact (clash_free demo_df demo_info 7 _ _ Hrun eq_refl).
Defined.

(** C2 for one student in six courses: the run succeeds, and Monday
    holds at most four of them. *)
Lemma daily_cap_witness :
  ∃ vars env',
    run_solver (RS:=lcg_source) (SO:=reverse_order) (one_student 6) (catalog 6) 3
      = Some (vars, env') ∧
    var_success vars = true ∧
    (length (occupied_slots (one_student 6) (var_timetable vars) "H001" "Monday") ≤ 4)%nat ∧
    (length (classes_on (one_student 6) (var_timetable vars) "H001" "Monday") ≤ 4)%nat.
Proof.
  pose proof six_run_eq as Hrun. unfold six_run in Hrun.
  eexists _, _. split; [exact Hrun|]. split; [reflexivity|].
  exact (daily_cap (one_student 6) (catalog 6) 3 _ _ _ _ Hrun eq_refl).
Defined.

(** C3 for "Stats" on Monday at eleven, once "OR" is placed: H001 has
    one class that day and H003 none, hence -500 - 1000. *)
Lemma slot_penalty_sum_witness :
  eval_slot demo_tracker ["H001"; "H003"] ("Monday", "11:00 AM - 12:30 PM")
    = Some (Verdict false false (-1500)) ∧
  ∃ evaluated rest,
    ["H001"; "H003"] = (evaluated ++ rest)%list ∧
    Forall (admits demo_tracker "Monday" "11:00 AM - 12:30 PM") evaluated ∧
    -1500 = Zsum ((λ s, contribution (length (load demo_tracker s "Monday"))) <$> evaluated) ∧
    match rest with
    | [] => false = false ∧ false = false
    | s :: _ =>
        ¬ admits demo_tracker "Monday" "11:00 AM - 12:30 PM" s ∧
        (false = true ∨ false = true)
    end.
Proof.
  assert (He : eval_slot demo_tracker ["H001"; "H003"] ("Monday", "11:00 AM - 12:30 PM")
               = Some (Verdict false false (-1500)))
    by vm_cast_no_check (eq_refl (Some (Verdict false false (-1500)))).
  split; [exact He|].
  exact (slot_penalty_sum demo_tracker ["H001"; "H003"]
           ("Monday", "11:00 AM - 12:30 PM") (Verdict false false (-1500)) He).
Defined.

(** A slot skipped at its second student keeps the contribution of the
    first: H003 is free on Monday, H001 is taken at nine. *)
Example slot_penalty_skip :
  eval_slot demo_tracker ["H003"; "H001"] ("Monday", "09:00 AM - 10:30 AM")
    = Some (Verdict true false (-1000)).
Proof. vm_cast_no_check (eq_refl (Some (Verdict true false (-1000)))). Qed.

(** C4 for "Stats" once "OR" is placed, candidates in grid order. *)
Lemma chosen_slot_first_min_witness :
  ∃ tt' t' g',
    place_subject (RS:=still_source) (SO:=elements_order) demo_info
      (build_course_students demo_df) "Stats" [] demo_tracker tt
      = Some (true, tt', t', g') ∧
    ∃ pre time post room,
      slot_grid = (pre ++ time :: post)%list ∧
      tt' = [Entry "Stats" (dict_get demo_info "Stats" "Unknown") time.1 time.2 room] ∧
      Forall (admits demo_tracker time.1 time.2)
        (enrolled_students (SO:=elements_order) (build_course_students demo_df) "Stats") ∧
      (∀ time', time' ∈ pre →
         Forall (admits demo_tracker time'.1 time'.2)
           (enrolled_students (SO:=elements_order) (build_course_students demo_df) "Stats") →
         penalty_of demo_tracker time.1
           (enrolled_students (SO:=elements_order) (build_course_students demo_df) "Stats")
         < penalty_of demo_tracker time'.1
             (enrolled_students (SO:=elements_order) (build_course_students demo_df)
                "Stats")) ∧
      (∀ time', time' ∈ slot_grid →
         Forall (admits demo_tracker time'.1 time'.2)
           (enrolled_students (SO:=elements_order) (build_course_students demo_df) "Stats") →
         penalty_of demo_tracker time.1
           (enrolled_students (SO:=elements_order) (build_course_students demo_df) "Stats")
         ≤ penalty_of demo_tracker time'.1
             (enrolled_students (SO:=elements_order) (build_course_students demo_df)
                "Stats")).
Proof.
  pose proof stats_step_eq as Hrun. unfold stats_step in Hrun.
  eexists _, _, _. split; [exact Hrun|].
  exact (chosen_slot_first_min (RS:=still_source) (SO:=elements_order) demo_info
           (build_course_students demo_df) "Stats" [] _ demo_tracker _ tt _ true Hrun).
Defined.

(** The slot chosen for "Stats" is Tuesday at nine, though the Monday
    slot at eleven comes earlier in the candidate order and both
    students let it through: H001 has a class on Monday, so the Monday
    slot scores -1500 and the Tuesday slot -2000.  The choice is by
    penalty, not by first fit. *)
Example chosen_slot_not_first_fit :
  (λ r, r.1.1.2) <$>
    place_subject (RS:=still_source) (SO:=elements_order) demo_info
      (build_course_students demo_df) "Stats" [] demo_tracker tt
    = Some [Entry "Stats" "Iyer" "Tuesday" "09:00 AM - 10:30 AM" "CR-1"] ∧
  enrolled_students (SO:=elements_order) (build_course_students demo_df) "Stats"
    = ["H003"; "H001"] ∧
  Forall (admits demo_tracker "Monday" "11:00 AM - 12:30 PM") ["H003"; "H001"] ∧
  penalty_of demo_tracker "Monday" ["H003"; "H001"] = -1500 ∧
  penalty_of demo_tracker "Tuesday" ["H003"; "H001"] = -2000.
Proof.
  split; [vm_compute; reflexivity|]. split; [vm_compute; reflexivity|].
  split.
  { apply (bool_decide_unpack
             (Forall (admits demo_tracker "Monday" "11:00 AM - 12:30 PM") ["H003"; "H001"])).
    vm_compute. exact I. }
  split; vm_compute; reflexivity.
Qed.

(** C6 as stated fails.  With one student enrolled in 21 courses every
    attempt stops at the 21st course, and the call returns 20 records;
    with the first 20 of these courses alone the first attempt succeeds
    and the call returns the same 20 records.  The returned value is the
    same in the partial and in the complete case, so it carries no
    completeness flag. *)
Lemma no_completeness_flag :
  (λ r, var_success r.1) <$>
    run_solver (RS:=still_source) (SO:=elements_order) (one_student 21) (catalog 21) tt
    = Some false ∧
  (λ r, var_success r.1) <$>
    run_solver (RS:=still_source) (SO:=elements_order) (one_student 20) (catalog 20) tt
    = Some true ∧
  is_Some (generate_timetable (RS:=still_source) (SO:=elements_order)
             (one_student 21) (catalog 21) tt) ∧
  generate_timetable (RS:=still_source) (SO:=elements_order)
    (one_student 21) (catalog 21) tt =
  generate_timetable (RS:=still_source) (SO:=elements_order)
    (one_student 20) (catalog 20) tt.
Proof.
  split; [vm_cast_no_check (eq_refl (Some false))|].
  split; [vm_cast_no_check (eq_refl (Some true))|].
  split; [apply fmap_is_Some, run_solver_total|].
  vm_cast_no_check
    (eq_refl (generate_timetable (RS:=still_source) (SO:=elements_order)
                (one_student 20) (catalog 20) tt)).
Qed.

(** C8 on the sample catalog, whose four keys are distinct. *)
Lemma each_course_once_witness :
  NoDup (dict_keys demo_info) ∧
  ∃ vars env',
    run_solver (RS:=lcg_source) (SO:=elements_order) demo_df demo_info 7
      = Some (vars, env') ∧
    NoDup (e_subject <$> var_timetable vars) ∧
    (∀ e, e ∈ var_timetable vars →
       e_subject e ∈ dict_keys demo_info ∧ (e_day e, e_slot e) ∈ slot_grid) ∧
    (var_success vars = true → e_subject <$> var_timetable vars ≡ₚ dict_keys demo_info).
Proof.
  assert (Hnd : NoDup (dict_keys demo_info)) by compute_done.
  split; [exact Hnd|].
  exact (each_course_once (RS:=lcg_source) (SO:=elements_order) demo_df demo_info 7 Hnd).
Defined.



(** C9 as stated fails.  "Law" is a course of the sample catalog that no
    row of the sample frame mentions.  The index the call builds has no
    key "Law" when the main loop is entered; the index with which the
    call returns holds the empty set under "Law", stored by the read of
    line 81.  The course-to-students mapping is not the same before and
    after the run. *)
Lemma index_written_by_read :
  env_course_students (init_env (rng:=Z) demo_df demo_info 7) !! "Law" = None ∧
  (λ r, env_course_students r.2 !! "Law") <$>
    run_solver (RS:=lcg_source) (SO:=elements_order) demo_df demo_info 7
    = Some (Some ∅) ∧
  (λ r, env_course_students r.2) <$>
    run_solver (RS:=lcg_source) (SO:=elements_order) demo_df demo_info 7
    ≠ Some (env_course_students (init_env (rng:=Z) demo_df demo_info 7)).
Proof.
  assert (H1 : env_course_students (init_env (rng:=Z) demo_df demo_info 7) !! "Law" = None)
    by vm_cast_no_check (eq_refl (@None (gset string))).
  assert (H2 : (λ r, env_course_students r.2 !! "Law") <$>
                 run_solver (RS:=lcg_source) (SO:=elements_order) demo_df demo_info 7
               = Some (Some ∅))
    by vm_cast_no_check (eq_refl (Some (Some (∅ : gset string)))).
  split; [exact H1|]. split; [exact H2|]. intros Heq.
  destruct (run_solver (RS:=lcg_source) (SO:=elements_order) demo_df demo_info 7)
    as [r|]; [|done].
  assert (Heq' : env_course_students r.2 =
                 env_course_students (init_env (rng:=Z) demo_df demo_info 7))
    by (by injection Heq).
  assert (H2' : env_course_students r.2 !! "Law" = Some ∅) by (by injection H2).
  rewrite Heq', H1 in H2'. done.
Qed.


(** * Further properties *)

Lemma elem_of_slot_grid (d sl : string) : (d, sl) ∈ slot_grid ↔ d ∈ days ∧ sl ∈ slots.
Proof.
  unfold slot_grid. rewrite list_elem_of_bind. split.
  - intros (d' & Hin & Hd). apply list_elem_of_bind in Hin as (sl' & Hin & Hsl).
    apply list_elem_of_singleton in Hin. by injection Hin as -> ->.
  - intros [Hd Hsl]. exists d. split; [|done].
    apply list_elem_of_bind. exists sl. split; [|done]. by apply list_elem_of_singleton.
Qed.

Lemma NoDup_slot_grid : NoDup slot_grid.
Proof. compute_done. Qed.

Lemma NoDup_slots : NoDup slots.
Proof. compute_done. Qed.

(** Fewer than twenty used slots leave a slot of the grid unused. *)
Lemma free_slot (used : list (string * string)) :
  (length used < 20)%nat → ∃ time, time ∈ slot_grid ∧ time ∉ used.
Proof.
  intros Hlen. destruct (decide (Forall (λ time, time ∈ used) slot_grid)) as [Hall|Hnot].
  - exfalso. rewrite Forall_forall in Hall.
    pose proof (submseteq_length _ _ (NoDup_submseteq _ _ NoDup_slot_grid Hall)) as Hle.
    change (length slot_grid) with 20%nat in Hle. lia.
  - apply not_Forall_Exists in Hnot; [|apply _]. apply Exists_exists in Hnot.
    destruct Hnot as (time & Hin & Hn). by exists time.
Qed.

Lemma elem_of_load (student_df : list row) (tt : list entry) (t : schedule)
    (s d sl : string) :
  tracks student_df tt t →
  sl ∈ load t s d ↔
  ∃ e, e ∈ tt ∧ e_day e = d ∧ e_slot e = sl ∧ enrolls student_df (e_subject e) s.
Proof.
  intros [_ Hload]. rewrite Hload, list_elem_of_fmap. unfold classes_on.
  setoid_rewrite list_elem_of_filter. naive_solver.
Qed.

(** In a sound state a day with four classes has no slot left, so a slot
    a student does not occupy is on a day with fewer than four. *)
Lemma load_not_full (student_df : list row) (ci : list (string * string))
    (tt : list entry) (t : schedule) (s d sl : string) :
  sound student_df ci tt t → sl ∈ slots → sl ∉ load t s d →
  (length (load t s d) < 4)%nat.
Proof.
  intros (Htr & Hlim & Hok) Hsl Hnin.
  assert (Hnd : NoDup (sl :: load t s d)).
  { apply NoDup_cons. split; [done|]. destruct Htr as [_ Hload]. rewrite Hload.
    by destruct (Hlim s d). }
  assert (Hsub : ∀ x, x ∈ sl :: load t s d → x ∈ slots).
  { intros x [->|Hx]%elem_of_cons; [done|].
    apply (elem_of_load _ _ _ _ _ _ Htr) in Hx as (e & He & _ & <- & _).
    rewrite Forall_forall in Hok. destruct (Hok e He) as (_ & Hg & _).
    by apply elem_of_slot_grid in Hg as [_ ?]. }
  pose proof (submseteq_length _ _ (NoDup_submseteq _ _ Hnd Hsub)) as Hle.
  simpl in Hle. lia.
Qed.

Lemma admits_iff (student_df : list row) (ci : list (string * string))
    (tt : list entry) (t : schedule) (s d sl : string) :
  sound student_df ci tt t → sl ∈ slots →
  admits t d sl s ↔ sl ∉ load t s d.
Proof.
  intros Hs Hsl. unfold admits. split; [by intros [? _]|].
  intros Hn. split; [done|]. by eapply load_not_full.
Qed.

Section Sound.
Context {rng : Type} {RS : RandomSource rng} {SO : SetOrder}.

Lemma sound_init (student_df : list row) (ci : list (string * string)) :
  sound student_df ci [] (init_schedule student_df).
Proof. split; [apply tracks_init|]. split; [apply within_limits_nil|constructor]. Qed.

Lemma place_subjects_sound (student_df : list row) (ci : list (string * string))
    (cs cs' : enrollment) (subjects : list string) (tt tt' : list entry)
    (t t' : schedule) (g g' : rng) (success : bool) :
  reads_as (build_course_students student_df) cs →
  sound student_df ci tt t →
  place_subjects ci cs subjects tt t g = Some (success, tt', t', cs', g') →
  sound student_df ci tt' t'.
Proof.
  intros Hr (Htr & Hlim & Hok) Hrun.
  destruct (place_subjects_inv student_df ci cs subjects tt t g Hr Htr Hlim)
    as (success0 & tt0 & t0 & cs0 & g0 & Hrun0 & Htr0 & Hlim0).
  rewrite Hrun in Hrun0. injection Hrun0 as <- <- <- <- <-.
  split; [done|]. split; [done|].
  apply place_subjects_run in Hrun as (pre & rest & new & _ & -> & _ & Hnew & _).
  by apply Forall_app.
Qed.

(** In a sound state a slot of the grid is rejected for a course exactly
    when it is taken, and then by the clash test. *)
Lemma eval_slot_sound (student_df : list row) (ci : list (string * string))
    (tt : list entry) (t : schedule) (subj : string) (time : string * string)
    (v : verdict) :
  sound student_df ci tt t → time ∈ slot_grid →
  eval_slot t (enrolled_students (build_course_students student_df) subj) time = Some v →
  daily_limit_reached v = false ∧
  (clash v = true ↔ taken student_df tt subj time).
Proof.
  intros Hs Hin Hv. destruct time as [d sl]. apply elem_of_slot_grid in Hin as [Hd Hsl].
  pose proof Hs as (Htr & _).
  unfold eval_slot in Hv. simpl in Hv.
  apply eval_students_run in Hv as (evaluated & rest & Heq & Hadm & _ & Hrest).
  assert (Htaken : ∀ s, s ∈ enrolled_students (build_course_students student_df) subj →
            sl ∈ load t s d → taken student_df tt subj (d, sl)).
  { intros s Hen Hl. apply elem_of_enrolled_students, elem_of_build_course_students in Hen.
    apply (elem_of_load _ _ _ _ _ _ Htr) in Hl as (e & He & <- & <- & Hes).
    by exists e, s. }
  destruct rest as [|s rest].
  - destruct Hrest as [Hc Hl]. split; [done|]. rewrite Hc. split; [done|].
    intros (e & s & He & [= <- <-] & Hs1 & Hs2). exfalso.
    rewrite app_nil_r in Heq. subst evaluated. rewrite Forall_forall in Hadm.
    destruct (Hadm s) as [Hn _].
    { by apply elem_of_enrolled_students, elem_of_build_course_students. }
    apply Hn. apply (elem_of_load _ _ _ _ _ _ Htr). by exists e.
  - destruct Hrest as (Hn & Hc & Hl).
    assert (Hocc : sl ∈ load t s d).
    { destruct (decide (sl ∈ load t s d)) as [|Hnin]; [done|].
      exfalso. apply Hn. by eapply admits_iff. }
    rewrite bool_decide_eq_true_2 in Hc by done. rewrite Hl, Hc. split; [done|].
    split; [|done]. intros _. apply (Htaken s); [|done].
    rewrite Heq. apply elem_of_app. right. by left.
Qed.
End Sound.

Lemma taken_used (student_df : list row) (tt : list entry) (subj : string)
    (time : string * string) :
  taken student_df tt subj time → time ∈ used_slots tt.
Proof.
  intros (e & s & He & <- & _). unfold used_slots.
  by apply (list_elem_of_fmap_2 (λ e, (e_day e, e_slot e))).
Qed.

Lemma dict_get_elem_of (ci : list (string * string)) (subj dflt : string) :
  subj ∈ dict_keys ci → (subj, dict_get ci subj dflt) ∈ ci.
Proof.
  unfold dict_keys. induction ci as [|[k v] ci IH]; simpl.
  - by intros ?%elem_of_nil.
  - intros Hin. case_decide as Hk.
    + subst k. by left.
    + right. apply IH. apply elem_of_cons in Hin as [Heq|Hin]; [|done].
      by subst.
Qed.

Lemma filter_fmap_length {A B : Type} (f : A → B) (P : B → Prop)
    `{∀ y, Decision (P y)} (l : list A) :
  length (filter (λ x, P (f x)) l) = length (filter P (f <$> l)).
Proof.
  induction l as [|x l IH]; [done|]. rewrite fmap_cons, !filter_cons.
  case_decide; simpl; by rewrite IH.
Qed.

(** A student's classes are spread over the five days. *)
Lemma week_total (student_df : list row) (tt : list entry) (s : string) :
  Forall (λ e, e_day e ∈ days) tt →
  (length (filter (λ e, enrolls student_df (e_subject e) s) tt) ≤
   length (classes_on student_df tt s "Monday") +
   length (classes_on student_df tt s "Tuesday") +
   length (classes_on student_df tt s "Wednesday") +
   length (classes_on student_df tt s "Thursday") +
   length (classes_on student_df tt s "Friday"))%nat.
Proof.
  unfold classes_on. induction tt as [|e tt IH]; intros Hd; [done|].
  apply Forall_cons in Hd as [He Hd]. specialize (IH Hd).
  rewrite !filter_cons. destruct (decide (enrolls student_df (e_subject e) s)) as [Hen|Hen].
  - unfold days in He. rewrite !elem_of_cons in He.
    destruct He as [He|[He|[He|[He|[He|He]]]]]; [..|by apply elem_of_nil in He];
      rewrite He; repeat case_decide; simpl; try lia; exfalso; naive_solver.
  - repeat case_decide; simpl; try lia; exfalso; naive_solver.
Qed.

Section Progress.
Context {rng : Type} {RS : RandomSource rng} {SO : SetOrder}.

Lemma place_subject_sound (student_df : list row) (ci : list (string * string))
    (subj : string) (tt tt' : list entry) (t t' : schedule) (g g' : rng) (placed : bool) :
  sound student_df ci tt t →
  place_subject ci (build_course_students student_df) subj tt t g
    = Some (placed, tt', t', g') →
  sound student_df ci tt' t'.
Proof.
  intros Hs Hrun.
  apply (place_subjects_sound student_df ci (build_course_students student_df)
           (stored_by_read (build_course_students student_df) subj)
           [subj] tt tt' t t' g g' placed (reads_as_refl _) Hs).
  simpl. rewrite (place_subject_reads ci _ (build_course_students student_df))
    by apply enrolled_of_stored_by_read.
  rewrite Hrun. simpl. by destruct placed.
Qed.

(** In a sound state a slot of the grid is hard-feasible for a course
    exactly when it is not taken. *)
Lemma feasible_iff_free (student_df : list row) (ci : list (string * string))
    (tt : list entry) (t : schedule) (subj : string) (time : string * string) :
  sound student_df ci tt t → time ∈ slot_grid →
  (∃ p, feasible_with t (enrolled_students (build_course_students student_df) subj) time p)
  ↔ ¬ taken student_df tt subj time.
Proof.
  intros Hs Hin. pose proof Hs as (Htr & _).
  destruct (eval_students_total (enrolled_students (build_course_students student_df) subj)
              t time.1 time.2 0 (tracks_covers _ _ _ subj Htr)) as [v Hv].
  fold (eval_slot t (enrolled_students (build_course_students student_df) subj) time) in Hv.
  destruct (eval_slot_sound _ _ _ _ _ _ _ Hs Hin Hv) as [Hl Hc].
  unfold feasible_with. rewrite Hv. split.
  - intros [p [= ->]] Ht. apply Hc in Ht. done.
  - intros Hn. exists (penalty v). destruct v as [c l p]. simpl in *. subst l.
    destruct c; [|done]. exfalso. by apply Hn, Hc.
Qed.

Lemma taken_or_free (student_df : list row) (ci : list (string * string))
    (tt : list entry) (t : schedule) (subj : string) (time : string * string) :
  sound student_df ci tt t → time ∈ slot_grid →
  taken student_df tt subj time ∨ ¬ taken student_df tt subj time.
Proof.
  intros Hs Hin. pose proof Hs as (Htr & _).
  destruct (eval_students_total (enrolled_students (build_course_students student_df) subj)
              t time.1 time.2 0 (tracks_covers _ _ _ subj Htr)) as [v Hv].
  fold (eval_slot t (enrolled_students (build_course_students student_df) subj) time) in Hv.
  destruct (eval_slot_sound _ _ _ _ _ _ _ Hs Hin Hv) as [_ Hc].
  destruct (clash v); [left; by apply Hc|right]. intros Ht. by apply Hc in Ht.
Qed.

(** A course is left unplaced exactly when every slot of the grid is
    taken. *)
Lemma place_subject_unplaced (student_df : list row) (ci : list (string * string))
    (subj : string) (tt tt' : list entry) (t t' : schedule) (g g' : rng) (placed : bool) :
  sound student_df ci tt t →
  place_subject ci (build_course_students student_df) subj tt t g
    = Some (placed, tt', t', g') →
  placed = false ↔ ∀ time, time ∈ slot_grid → taken student_df tt subj time.
Proof.
  intros Hs Hrun. apply place_subject_run in Hrun. destruct placed.
  - destruct Hrun as (pre & time & post & p & n & Hord & Hf & _).
    split; [done|]. intros Hall. exfalso.
    assert (Hin : time ∈ slot_grid).
    { rewrite <- (shuffle_slot_grid g), Hord. apply elem_of_app. right. by left. }
    apply (feasible_iff_free _ _ _ _ subj time Hs Hin); [by exists p|by apply Hall].
  - destruct Hrun as (_ & _ & _ & Hnone). split; [|done]. intros _ time Hin.
    destruct (taken_or_free _ _ _ _ subj time Hs Hin) as [|Hn]; [done|].
    exfalso. apply (feasible_iff_free _ _ _ _ subj time Hs Hin) in Hn as [p Hp].
    by apply (Hnone time p).
Qed.
End Progress.

Section RunFacts.
Context {rng : Type} {RS : RandomSource rng} {SO : SetOrder}.

(** The variables of an attempt are those the subject loop leaves, run
    from the empty timetable and tracker on the attempt's order. *)
Lemma attempt_body_places (student_df : list row) (ci : list (string * string))
    (k : nat) (env env' : solver_env rng) (vars : attempt_vars) :
  env_ok student_df ci env →
  attempt_body k env = Some (vars, env') →
  ∃ cs g1,
    reads_as (build_course_students student_df) cs ∧
    place_subjects ci cs (env_all_subjects env') [] (init_schedule student_df) g1
    = Some (var_success vars, var_timetable vars, var_student_schedule vars,
            env_course_students env', env_random env').
Proof.
  intros (Hdf & Hci & Hcs & _). unfold attempt_body. rewrite Hdf, Hci.
  destruct (shuffle (env_all_subjects env) (env_random env)) as [order g1].
  destruct (place_subjects ci (env_course_students env) order []
              (init_schedule student_df) g1) as [[[[[success tt] t] cs'] g2]|] eqn:Hrun;
    [|done].
  simpl. intros [= <- <-]. simpl. exists (env_course_students env), g1.
  split; [by eapply grown_from_reads_as|done].
Qed.

Lemma nth_attempt_places (student_df : list row) (ci : list (string * string))
    (g : rng) (k : nat) (env' : solver_env rng) (vars : attempt_vars) :
  nth_attempt student_df ci g k = Some (vars, env') →
  ∃ cs g1,
    reads_as (build_course_students student_df) cs ∧
    place_subjects ci cs (env_all_subjects env') [] (init_schedule student_df) g1
    = Some (var_success vars, var_timetable vars, var_student_schedule vars,
            env_course_students env', env_random env').
Proof.
  unfold nth_attempt.
  destruct (env_before_ok student_df ci g k) as (env & -> & Hok). simpl.
  by apply attempt_body_places.
Qed.

Lemma nth_attempt_keys (student_df : list row) (ci : list (string * string))
    (g : rng) (k : nat) (env' : solver_env rng) (vars : attempt_vars) :
  nth_attempt student_df ci g k = Some (vars, env') →
  env_all_subjects env' ≡ₚ dict_keys ci.
Proof.
  intros Hnth. destruct (nth_attempt_run student_df ci g k)
    as (vars0 & env0 & Hnth0 & Hok & _).
  rewrite Hnth in Hnth0. injection Hnth0 as <- <-. apply Hok.
Qed.

(** What the subject loop leaves when run from the empty state. *)
Lemma place_subjects_from_init (student_df : list row) (ci : list (string * string))
    (cs cs' : enrollment) (subjects : list string) (tt : list entry) (t : schedule)
    (g g' : rng) (success : bool) :
  place_subjects ci cs subjects [] (init_schedule student_df) g
    = Some (success, tt, t, cs', g') →
  reads_as (build_course_students student_df) cs →
  sound student_df ci tt t ∧
  ∃ rest, subjects = ((e_subject <$> tt) ++ rest)%list ∧
    if success then rest = []
    else (20 ≤ length tt)%nat ∧
         ∃ c post, rest = c :: post ∧ ∀ time, time ∈ slot_grid → taken student_df tt c time.
Proof.
  intros Hrun Hr.
  pose proof (place_subjects_sound student_df ci cs cs' subjects [] tt _ t g g' success
                Hr (sound_init student_df ci) Hrun) as Hs.
  split; [done|].
  apply place_subjects_run in Hrun as (pre & rest & new & -> & -> & <- & _ & Hend).
  simpl in *. exists rest. split; [done|]. destruct success; [done|].
  destruct Hend as (c & post & -> & Hnone).
  rewrite (enrolled_students_reads_as _ _ c Hr) in Hnone.
  assert (Hall : ∀ time, time ∈ slot_grid → taken student_df new c time).
  { intros time Hin. destruct (taken_or_free _ _ _ _ c time Hs Hin) as [|Hn]; [done|].
    exfalso. apply (feasible_iff_free _ _ _ _ c time Hs Hin) in Hn as [p Hp].
    by apply (Hnone time p). }
  split; [|by exists c, post].
  destruct (decide (length new < 20)%nat) as [Hlt|]; [|lia]. exfalso.
  destruct (free_slot (used_slots new)) as (time & Hin & Hfree).
  { unfold used_slots. by rewrite length_fmap. }
  apply Hfree. by eapply taken_used, Hall.
Qed.

Lemma nth_attempt_progress (student_df : list row) (ci : list (string * string))
    (g : rng) (k : nat) (env' : solver_env rng) (vars : attempt_vars) :
  nth_attempt student_df ci g k = Some (vars, env') →
  (length (var_timetable vars) ≤ length ci)%nat ∧
  if var_success vars then length (var_timetable vars) = length ci
  else (20 ≤ length (var_timetable vars) < length ci)%nat.
Proof.
  intros Hnth. pose proof (nth_attempt_keys _ _ _ _ _ _ Hnth) as Hperm.
  apply nth_attempt_places in Hnth as (cs & g1 & Hr & Hrun).
  apply place_subjects_from_init in Hrun as (_ & rest & Heq & Hend); [|done].
  apply Permutation_length in Hperm. unfold dict_keys in Hperm.
  rewrite Heq, length_app, !length_fmap in Hperm.
  destruct (var_success vars).
  - subst rest. simpl in Hperm. lia.
  - destruct Hend as (H20 & c & post & -> & _). simpl in Hperm. lia.
Qed.

Lemma run_solver_nth (student_df : list row) (ci : list (string * string)) (g : rng)
    (vars : attempt_vars) (env' : solver_env rng) :
  run_solver student_df ci g = Some (vars, env') →
  nth_attempt student_df ci g (var_attempt vars) = Some (vars, env') ∧
  (∀ i, (i < var_attempt vars)%nat →
     ∃ vi ei, nth_attempt student_df ci g i = Some (vi, ei) ∧ var_success vi = false) ∧
  (var_success vars = true ∨ var_attempt vars = 99%nat).
Proof.
  intros Hrun. destruct (run_solver_run student_df ci g)
    as (vars0 & env0 & Hrun0 & _ & Hnth & Hprev & Hlast & _).
  rewrite Hrun in Hrun0. by injection Hrun0 as <- <-.
Qed.
End RunFacts.

Section Further.
Context {rng : Type} {RS : RandomSource rng} {SO : SetOrder}.

(** When every attempt succeeds, a call returns from its first one. *)
Lemma first_attempt_returns (student_df : list row) (ci : list (string * string)) (g : rng)
    (vars : attempt_vars) (env' : solver_env rng) :
  (∀ k vk ek, nth_attempt student_df ci g k = Some (vk, ek) → var_success vk = true) →
  run_solver student_df ci g = Some (vars, env') →
  var_attempt vars = 0%nat ∧ var_success vars = true.
Proof.
  intros Hall Hrun. apply run_solver_nth in Hrun as (Hnth & Hprev & _).
  split; [|by eapply Hall].
  destruct (var_attempt vars) as [|k]; [done|]. exfalso.
  destruct (Hprev 0%nat) as (v0 & e0 & H0 & Hf); [lia|].
  apply Hall in H0. congruence.
Qed.

(** When every attempt fails, a call returns from attempt 99. *)
Lemma last_attempt_returns (student_df : list row) (ci : list (string * string)) (g : rng)
    (vars : attempt_vars) (env' : solver_env rng) :
  (∀ k vk ek, nth_attempt student_df ci g k = Some (vk, ek) → var_success vk = false) →
  run_solver student_df ci g = Some (vars, env') →
  var_attempt vars = 99%nat ∧ var_success vars = false.
Proof.
  intros Hall Hrun. apply run_solver_nth in Hrun as (Hnth & _ & Hlast).
  apply Hall in Hnth. split; [|done]. destruct Hlast as [?|?]; [congruence|done].
Qed.

(** X1.  A call never raises: every student the loops look up in
    [student_schedule] is one of its keys, and [timetable] is bound when
    the loop over the attempts is left; so a call returns a frame,
    whatever the inputs and the random draws. *)
Theorem call_never_raises (student_df : list row) (course_info : list (string * string))
    (g : rng) :
  is_Some (generate_timetable student_df course_info g).
Proof.
  unfold generate_timetable. apply fmap_is_Some.
  destruct (run_solver_run student_df course_info g) as (vars & env' & -> & _). eauto.
Qed.

(** X2.  In every state the subject loop reaches from the empty timetable,
    the test of line 103 never fires on a slot of the grid: a day on
    which a student has four classes has all its four slots occupied by
    that student, so the clash test of line 97 fires first.  A slot is
    rejected, by a clash, exactly when a placed course sharing a student
    with the candidate course sits in it. *)
Theorem limit_branch_never_fires (student_df : list row)
    (course_info : list (string * string)) (subjects : list string)
    (timetable : list entry) (student_schedule : schedule)
    (course_students : enrollment) (g g' : rng) (success : bool)
    (subj : string) (time : string * string) (v : verdict) :
  place_subjects course_info (build_course_students student_df) subjects []
    (init_schedule student_df) g
    = Some (success, timetable, student_schedule, course_students, g') →
  time ∈ slot_grid →
  eval_slot student_schedule
    (enrolled_students (stored_by_read course_students subj) subj) time = Some v →
  daily_limit_reached v = false ∧
  (clash v = true ↔ taken student_df timetable subj time).
Proof.
  intros Hrun Hin Hv.
  assert (Hr : reads_as (build_course_students student_df) course_students).
  { eapply grown_from_reads_as, (place_subjects_grown _ _ _ _ subjects subjects);
      [apply grown_from_refl|done|exact Hrun]. }
  rewrite enrolled_students_stored_by_read, (enrolled_students_reads_as _ _ subj Hr) in Hv.
  apply place_subjects_from_init in Hrun as [Hs _]; [|done].
  by eapply eval_slot_sound.
Qed.

(** X3.  In every state the subject loop reaches from the empty timetable,
    the body of the loop leaves a course unplaced exactly when each of
    the twenty slots holds a placed course that shares a student with
    it. *)
Theorem unplaced_iff_all_slots_taken (student_df : list row)
    (course_info : list (string * string)) (subjects : list string)
    (timetable timetable' : list entry) (student_schedule student_schedule' : schedule)
    (course_students : enrollment) (g0 g g' : rng) (subj : string) (placed : bool) :
  place_subjects course_info (build_course_students student_df) subjects []
    (init_schedule student_df) g0
    = Some (true, timetable, student_schedule, course_students, g) →
  place_subject course_info (stored_by_read course_students subj) subj
    timetable student_schedule g = Some (placed, timetable', student_schedule', g') →
  placed = false ↔ ∀ time, time ∈ slot_grid → taken student_df timetable subj time.
Proof.
  intros Hrun Hstep.
  assert (Hr : reads_as (build_course_students student_df) course_students).
  { eapply grown_from_reads_as, (place_subjects_grown _ _ _ _ subjects subjects);
      [apply grown_from_refl|done|exact Hrun]. }
  rewrite (place_subject_reads course_info _ (build_course_students student_df)) in Hstep
    by (rewrite enrolled_of_stored_by_read; apply Hr).
  apply place_subjects_from_init in Hrun as [Hs _]; [|done].
  by eapply place_subject_unplaced.
Qed.

(** X4.  An attempt cannot fail before it has placed twenty courses: the
    timetable a call returns is complete or holds at least twenty
    records. *)
Theorem twenty_courses_always_placed (student_df : list row)
    (course_info : list (string * string)) (g : rng) :
  ∃ vars env',
    run_solver student_df course_info g = Some (vars, env') ∧
    (Nat.min 20 (length course_info) ≤ length (var_timetable vars) ≤ length course_info)%nat.
Proof.
  destruct (run_solver_run student_df course_info g) as (vars & env' & Hrun & _).
  exists vars, env'. split; [done|].
  apply run_solver_nth in Hrun as (Hnth & _).
  apply nth_attempt_progress in Hnth as [Hle Hcase].
  destruct (var_success vars); lia.
Qed.

(** X5.  A catalog of at most twenty courses is always placed in full by
    the first attempt, whatever the enrollments and the random draws. *)
Theorem small_catalog_first_attempt (student_df : list row)
    (course_info : list (string * string)) (g : rng) :
  (length course_info ≤ 20)%nat →
  ∃ vars env',
    run_solver student_df course_info g = Some (vars, env') ∧
    var_attempt vars = 0%nat ∧ var_success vars = true ∧
    length (var_timetable vars) = length course_info.
Proof.
  intros Hlen.
  destruct (run_solver_run student_df course_info g) as (vars & env' & Hrun & _).
  exists vars, env'. split; [done|].
  destruct (first_attempt_returns student_df course_info g vars env') as [H0 Hs];
    [|done|].
  { intros k vk ek Hk. apply nth_attempt_progress in Hk as [_ Hcase].
    destruct (var_success vk); [done|lia]. }
  split; [done|]. split; [done|].
  apply run_solver_nth in Hrun as (Hnth & _).
  apply nth_attempt_progress in Hnth as [_ Hcase]. by rewrite Hs in Hcase.
Qed.

(** X6.  When some student is enrolled in more than twenty courses of the
    catalog, every attempt fails: the call runs all 100 attempts and
    returns a timetable that lacks at least one course. *)
Theorem overloaded_student_fails (student_df : list row)
    (course_info : list (string * string)) (g : rng) (s : string) :
  (20 < length (filter (λ subj, enrolls student_df subj s) (dict_keys course_info)))%nat →
  ∃ vars env',
    run_solver student_df course_info g = Some (vars, env') ∧
    var_attempt vars = 99%nat ∧ var_success vars = false ∧
    (length (var_timetable vars) < length course_info)%nat.
Proof.
  intros Hmany.
  destruct (run_solver_run student_df course_info g) as (vars & env' & Hrun & _).
  exists vars, env'. split; [done|].
  destruct (last_attempt_returns student_df course_info g vars env') as [H99 Hf];
    [|done|].
  { intros k vk ek Hk. pose proof (nth_attempt_keys _ _ _ _ _ _ Hk) as Hperm.
    apply nth_attempt_places in Hk as (cs & g1 & Hr & Hk).
    apply place_subjects_from_init in Hk as ((Htr & Hlim & Hok) & rest & Heq & Hend);
      [|done].
    destruct (var_success vk); [|done]. exfalso. subst rest.
    rewrite app_nil_r in Heq. rewrite Heq in Hperm.
    rewrite <- Hperm, <- filter_fmap_length in Hmany.
    assert (Hdays : Forall (λ e, e_day e ∈ days) (var_timetable vk)).
    { eapply Forall_impl; [exact Hok|]. intros e (_ & Hg & _).
      by apply elem_of_slot_grid in Hg as [? _]. }
    pose proof (week_total student_df (var_timetable vk) s Hdays) as Hweek.
    destruct (Hlim s "Monday") as [_ ?], (Hlim s "Tuesday") as [_ ?],
      (Hlim s "Wednesday") as [_ ?], (Hlim s "Thursday") as [_ ?],
      (Hlim s "Friday") as [_ ?].
    lia. }
  split; [done|]. split; [done|].
  apply run_solver_nth in Hrun as (Hnth & _).
  apply nth_attempt_progress in Hnth as [_ Hcase]. rewrite Hf in Hcase. lia.
Qed.

(** X7.  The default of [course_info.get(subj, "Unknown")] is never used:
    every returned record pairs its subject with an instructor the
    catalog lists for that subject. *)
Theorem faculty_from_catalog (student_df : list row)
    (course_info : list (string * string)) (g : rng) :
  ∃ vars env',
    run_solver student_df course_info g = Some (vars, env') ∧
    ∀ e, e ∈ var_timetable vars → (e_subject e, e_faculty e) ∈ course_info.
Proof.
  destruct (run_solver_run student_df course_info g)
    as (vars & env' & Hrun & _ & _ & _ & _ & Hok & _ & _ & Hent & rest & Hsub & _).
  exists vars, env'. split; [done|]. intros e He.
  rewrite Forall_forall in Hent. destruct (Hent e He) as (-> & _).
  apply dict_get_elem_of. destruct Hok as (_ & _ & _ & Hperm).
  rewrite <- Hperm, Hsub. apply elem_of_app. left. by apply list_elem_of_fmap_2.
Qed.

Lemma place_subjects_disjoint (student_df : list row) (ci : list (string * string))
    (cs cs' : enrollment) (subjects : list string) (tt tt' : list entry)
    (t t' : schedule) (g g' : rng) (success : bool) :
  (∀ s c1 c2, c1 ∈ dict_keys ci → c2 ∈ dict_keys ci →
     enrolls student_df c1 s → enrolls student_df c2 s → c1 = c2) →
  reads_as (build_course_students student_df) cs →
  sound student_df ci tt t →
  NoDup ((e_subject <$> tt) ++ subjects)%list →
  (∀ c, c ∈ ((e_subject <$> tt) ++ subjects)%list → c ∈ dict_keys ci) →
  place_subjects ci cs subjects tt t g = Some (success, tt', t', cs', g') →
  success = true.
Proof.
  intros Hdis. revert cs tt t g. induction subjects as [|subj rest IH];
    intros cs tt t g Hr Hs Hnd Hkeys; simpl; [by intros [= <-]|].
  pose proof (reads_as_stored _ _ subj Hr) as Hr1.
  rewrite (place_subject_reads ci _ (build_course_students student_df)) by apply Hr1.
  destruct (place_subject ci (build_course_students student_df) subj tt t g)
    as [[[[placed tt1] t1] g1]|] eqn:Hstep; [|done].
  simpl. pose proof (place_subject_sound _ _ _ _ _ _ _ _ _ _ Hs Hstep) as Hs1.
  assert (Hfree : ∀ time, ¬ taken student_df tt subj time).
  { intros time (e & s & He & _ & Hs1' & Hs2').
    assert (Heq : subj = e_subject e).
    { apply (Hdis s); [| |done|done]; apply Hkeys.
      - apply elem_of_app. right. by left.
      - apply elem_of_app. left. by apply list_elem_of_fmap_2. }
    apply NoDup_app in Hnd as (_ & Hnd & _). apply (Hnd subj).
    - rewrite Heq. by apply list_elem_of_fmap_2.
    - by left. }
  destruct placed.
  - apply place_subject_run in Hstep
      as (pre & time & post & p & n & _ & _ & _ & _ & _ & -> & _).
    apply IH; [done|done| |].
    + rewrite fmap_app, <- app_assoc. done.
    + intros c Hc. apply Hkeys. by rewrite fmap_app, <- app_assoc in Hc.
  - exfalso. destruct (place_subject_unplaced _ _ _ _ _ _ _ _ _ _ Hs Hstep) as [Hall _].
    apply (Hfree ("Monday", "09:00 AM - 10:30 AM")). apply Hall; [done|].
    apply elem_of_slot_grid. split; by left.
Qed.

(** X8.  When no student is enrolled in two courses of the catalog, the
    first attempt places every course, however many there are. *)
Theorem disjoint_courses_first_attempt (student_df : list row)
    (course_info : list (string * string)) (g : rng) :
  NoDup (dict_keys course_info) →
  (∀ s c1 c2, c1 ∈ dict_keys course_info → c2 ∈ dict_keys course_info →
     enrolls student_df c1 s → enrolls student_df c2 s → c1 = c2) →
  ∃ vars env',
    run_solver student_df course_info g = Some (vars, env') ∧
    var_attempt vars = 0%nat ∧ var_success vars = true ∧
    e_subject <$> var_timetable vars ≡ₚ dict_keys course_info.
Proof.
  intros Hnd Hdis.
  destruct (run_solver_run student_df course_info g) as (vars & env' & Hrun & _).
  exists vars, env'. split; [done|].
  destruct (first_attempt_returns student_df course_info g vars env') as [H0 Hs];
    [|done|].
  { intros k vk ek Hk. pose proof (nth_attempt_keys _ _ _ _ _ _ Hk) as Hperm.
    apply nth_attempt_places in Hk as (cs & g1 & Hr & Hk).
    eapply place_subjects_disjoint; [exact Hdis|exact Hr|apply sound_init| | |exact Hk];
      simpl.
    - by rewrite Hperm.
    - intros c Hc. by rewrite <- Hperm. }
  split; [done|]. split; [done|].
  apply run_solver_nth in Hrun as (Hnth & _).
  pose proof (nth_attempt_keys _ _ _ _ _ _ Hnth) as Hperm.
  apply nth_attempt_places in Hnth as (cs & g1 & Hr & Hk).
  apply place_subjects_from_init in Hk as (_ & rest & Heq & Hend); [|done].
  rewrite Hs in Hend. subst rest. rewrite app_nil_r in Heq. by rewrite <- Heq.
Qed.

(** X9.  When a call returns, [student_schedule] holds an entry for every
    student of the frame and lists, for each student and day, the slots
    of the student's classes of that day in the order the courses were
    placed, and nothing for anyone else. *)
Theorem tracker_mirrors_timetable (student_df : list row)
    (course_info : list (string * string)) (g : rng) :
  ∃ vars env',
    run_solver student_df course_info g = Some (vars, env') ∧
    (∀ s, s ∈ row_student_id <$> student_df →
          is_Some (var_student_schedule vars !! s)) ∧
    (∀ s d, load (var_student_schedule vars) s d =
            e_slot <$> classes_on student_df (var_timetable vars) s d).
Proof.
  destruct (run_solver_run student_df course_info g)
    as (vars & env' & Hrun & _ & _ & _ & _ & _ & [Hdom Hload] & _).
  by exists vars, env'.
Qed.
End Further.

(** X10.  The index built by lines 65-67 has a key for exactly the
    subjects that occur in the frame, and the set under a key holds
    exactly the students some row enrolls in that subject; no set is
    empty. *)
Theorem course_students_index (student_df : list row) (subj : string) :
  match build_course_students student_df !! subj with
  | None => ∀ r, r ∈ student_df → row_subject r ≠ subj
  | Some X => X ≠ ∅ ∧ ∀ s, s ∈ X ↔ enrolls student_df subj s
  end.
Proof.
  pose proof (elem_of_build_course_students student_df subj) as Hel.
  unfold enrolled_of in Hel.
  destruct (build_course_students student_df !! subj) as [X|] eqn:HX; simpl in Hel.
  - split; [|done]. eapply foldl_add_enrollment_nonempty; [|exact HX].
    intros ??. by rewrite lookup_empty.
  - intros r Hr Hsubj. apply (not_elem_of_empty (C:=gset string) (row_student_id r)).
    apply Hel, enrolls_exists. by exists r.
Qed.

Lemma contribution_mono (n m : nat) :
  (n ≤ 3)%nat → (m ≤ 3)%nat → contribution n ≤ contribution m → (n ≤ m)%nat.
Proof.
  intros Hn Hm. destruct n as [|[|[|[|n]]]], m as [|[|[|[|m]]]]; simpl; lia.
Qed.

(** A day on which a student has fewer than four classes has a slot the
    student does not occupy. *)
Lemma free_slot_of_day (l : list string) :
  (length l < 4)%nat → ∃ sl, sl ∈ slots ∧ sl ∉ l.
Proof.
  intros Hlen. destruct (decide (Forall (λ sl, sl ∈ l) slots)) as [Hall|Hnot].
  - exfalso. rewrite Forall_forall in Hall.
    pose proof (submseteq_length _ _ (NoDup_submseteq _ _ NoDup_slots Hall)) as Hle.
    simpl in Hle. lia.
  - apply not_Forall_Exists in Hnot; [|apply _]. apply Exists_exists in Hnot.
    destruct Hnot as (sl & Hin & Hn). by exists sl.
Qed.

Section Balance.
Context {rng : Type} {RS : RandomSource rng} {SO : SetOrder}.

Lemma single_enrolled (student_df : list row) (s subj : string) :
  (∀ r, r ∈ student_df → row_student_id r = s) →
  (enrolled_students (build_course_students student_df) subj = [] ∧
   ¬ enrolls student_df subj s) ∨
  (enrolled_students (build_course_students student_df) subj = [s] ∧
   enrolls student_df subj s).
Proof.
  intros Hone.
  assert (Hs : ∀ x, x ∈ enrolled_of (build_course_students student_df) subj → x = s).
  { intros x (r & Hr & _ & <-)%elem_of_build_course_students%enrolls_exists.
    by apply Hone. }
  destruct (decide (s ∈ enrolled_of (build_course_students student_df) subj)) as [Hin|Hnin].
  - right. split; [|by apply elem_of_build_course_students].
    assert (HX : enrolled_of (build_course_students student_df) subj = {[s]}).
    { apply set_eq. intros x. rewrite elem_of_singleton. split; [apply Hs|by intros ->]. }
    unfold enrolled_students. rewrite HX.
    apply Permutation_singleton_r. by rewrite set_iter_perm, elements_singleton.
  - left. split; [|by rewrite <- elem_of_build_course_students].
    apply enrolled_students_empty. apply set_eq. intros x. split; [|set_solver].
    intros Hx. pose proof (Hs x Hx). by subst.
Qed.

Lemma place_subject_balanced (student_df : list row) (ci : list (string * string))
    (s subj : string) (tt tt' : list entry) (t t' : schedule) (g g' : rng) (placed : bool) :
  (∀ r, r ∈ student_df → row_student_id r = s) →
  sound student_df ci tt t → balanced student_df tt s →
  place_subject ci (build_course_students student_df) subj tt t g
    = Some (placed, tt', t', g') →
  balanced student_df tt' s.
Proof.
  intros Hone Hs Hbal Hrun. pose proof Hs as (Htr & Hlim & Hok).
  pose proof (tracks_covers _ _ _ subj Htr) as Hcov.
  apply place_subject_run in Hrun. destruct placed; [|by destruct Hrun as (-> & _)].
  destruct Hrun as (pre & [day slot] & post & p & n & Hord & Hf & _ & Hmin & _ & -> & _).
  assert (Hgrid : (day, slot) ∈ slot_grid).
  { rewrite <- (shuffle_slot_grid g), Hord. apply elem_of_app. right. by left. }
  destruct (single_enrolled student_df s subj Hone) as [[Hnil Hnot]|[Hsing Hen]].
  - intros d1 d2 Hd1 Hd2. rewrite !classes_on_snoc. simpl.
    rewrite !decide_False by tauto. rewrite !app_nil_r. by apply Hbal.
  - rewrite Hsing in *. destruct Htr as [_ Hload].
    apply feasible_with_iff in Hf as [Hadm ->]; [|done]. simpl in Hadm.
    apply Forall_singleton in Hadm as [Hfree Hlt].
    unfold penalty_of in Hmin. simpl in Hmin.
    assert (Hleast : ∀ d, d ∈ days →
              (length (classes_on student_df tt s day) ≤
               length (classes_on student_df tt s d))%nat).
    { intros d Hd. destruct (Hlim s d) as [_ Hle].
      rewrite Hload, length_fmap in Hlt.
      destruct (decide (length (classes_on student_df tt s d) < 4)%nat) as [Hd4|]; [|lia].
      destruct (free_slot_of_day (load t s d)) as (sl & Hsl & Hnin).
      { by rewrite Hload, length_fmap. }
      specialize (Hmin (d, sl) (contribution (length (load t s d)) + 0)).
      rewrite !Hload, !length_fmap in Hmin.
      apply contribution_mono; [lia|lia|].
      assert (Hgoal : contribution (length (classes_on student_df tt s day)) + 0 ≤
                      contribution (length (classes_on student_df tt s d)) + 0); [|lia].
      unfold Zsum in Hmin. simpl in Hmin. apply Hmin.
      - by apply elem_of_slot_grid.
      - apply feasible_with_iff; [done|]. simpl. split.
        + apply Forall_singleton. split; [done|]. by rewrite Hload, length_fmap.
        + unfold penalty_of, Zsum. simpl. by rewrite Hload, length_fmap. }
    intros d1 d2 Hd1 Hd2. rewrite !classes_on_snoc, !length_app. simpl.
    pose proof (Hbal d1 d2 Hd1 Hd2). pose proof (Hleast d2 Hd2).
    repeat case_decide; destruct_and?; subst; simpl; lia.
Qed.

Lemma place_subjects_balanced (student_df : list row) (ci : list (string * string))
    (s : string) (cs cs' : enrollment) (subjects : list string) (tt tt' : list entry)
    (t t' : schedule) (g g' : rng) (success : bool) :
  (∀ r, r ∈ student_df → row_student_id r = s) →
  reads_as (build_course_students student_df) cs →
  sound student_df ci tt t → balanced student_df tt s →
  place_subjects ci cs subjects tt t g = Some (success, tt', t', cs', g') →
  balanced student_df tt' s.
Proof.
  intros Hone. revert cs tt t g. induction subjects as [|subj rest IH];
    intros cs tt t g Hr Hs Hbal; simpl; [by intros [= <- <- <- <- <-]|].
  pose proof (reads_as_stored _ _ subj Hr) as Hr1.
  rewrite (place_subject_reads ci _ (build_course_students student_df)) by apply Hr1.
  destruct (place_subject ci (build_course_students student_df) subj tt t g)
    as [[[[placed tt1] t1] g1]|] eqn:Hstep; [|done].
  simpl. pose proof (place_subject_sound _ _ _ _ _ _ _ _ _ _ Hs Hstep) as Hs1.
  pose proof (place_subject_balanced _ _ _ _ _ _ _ _ _ _ _ Hone Hs Hbal Hstep) as Hb1.
  destruct placed; [by apply IH|]. by intros [= <- <- <- <- <-].
Qed.

(** X11.  For a frame with a single student, the returned timetable
    spreads the student's classes evenly over the five days: the numbers
    of classes on two days differ by at most one.  So no day is left
    without a class once five of the student's courses are placed. *)
Theorem single_student_balanced (student_df : list row)
    (course_info : list (string * string)) (g : rng) (s : string)
    (vars : attempt_vars) (env' : solver_env rng) :
  (∀ r, r ∈ student_df → row_student_id r = s) →
  run_solver student_df course_info g = Some (vars, env') →
  balanced student_df (var_timetable vars) s ∧
  ((5 ≤ length (filter (λ e, enrolls student_df (e_subject e) s) (var_timetable vars)))%nat →
   ∀ d, d ∈ days → classes_on student_df (var_timetable vars) s d ≠ []).
Proof.
  intros Hone Hrun. apply run_solver_nth in Hrun as (Hnth & _).
  apply nth_attempt_places in Hnth as (cs & g1 & Hr & Hk).
  pose proof (place_subjects_from_init _ _ _ _ _ _ _ _ _ _ Hk Hr) as ((_ & _ & Hok) & _).
  assert (Hbal : balanced student_df (var_timetable vars) s).
  { eapply place_subjects_balanced; [exact Hone|exact Hr|apply sound_init| |exact Hk].
    intros d1 d2 _ _. simpl. lia. }
  split; [done|]. intros Hfive d Hd Hnil.
  assert (Hdays : Forall (λ e, e_day e ∈ days) (var_timetable vars)).
  { eapply Forall_impl; [exact Hok|]. intros e (_ & Hg & _).
    by apply elem_of_slot_grid in Hg as [? _]. }
  pose proof (week_total student_df (var_timetable vars) s Hdays) as Hweek.
  assert (Hle : ∀ d', d' ∈ days →
            (length (classes_on student_df (var_timetable vars) s d') ≤ 1)%nat).
  { intros d' Hd'. pose proof (Hbal d' d Hd' Hd) as Hb. rewrite Hnil in Hb. simpl in Hb. lia. }
  pose proof (Hle "Monday") as H1. pose proof (Hle "Tuesday") as H2.
  pose proof (Hle "Wednesday") as H3. pose proof (Hle "Thursday") as H4.
  pose proof (Hle "Friday") as H5.
  unfold days in H1, H2, H3, H4, H5.
  assert (Hsum : (length (classes_on student_df (var_timetable vars) s "Monday") +
                  length (classes_on student_df (var_timetable vars) s "Tuesday") +
                  length (classes_on student_df (var_timetable vars) s "Wednesday") +
                  length (classes_on student_df (var_timetable vars) s "Thursday") +
                  length (classes_on student_df (var_timetable vars) s "Friday") ≤ 4)%nat).
  { unfold days in Hd. rewrite !elem_of_cons in Hd.
    specialize (H1 ltac:(set_solver)). specialize (H2 ltac:(set_solver)).
    specialize (H3 ltac:(set_solver)). specialize (H4 ltac:(set_solver)).
    specialize (H5 ltac:(set_solver)).
    destruct Hd as [->|[->|[->|[->|[->|Hd]]]]]; [..|by apply elem_of_nil in Hd];
      rewrite Hnil in *; simpl in *; lia. }
  lia.
Qed.
End Balance.

Lemma classes_at_cons_le (student_df : list row) (e : entry) (tt : list entry)
    (s d sl : string) :
  (length (classes_at student_df tt s d sl) ≤
   length (classes_at student_df (e :: tt) s d sl))%nat.
Proof. unfold classes_at. rewrite filter_cons. case_decide; simpl; lia. Qed.

(** Records of one student's courses, no two of them in one slot, have
    distinct pivot keys. *)
Lemma NoDup_pivot_keys (student_df : list row) (tt : list entry) (s : string)
    (subjects : list string) :
  (∀ d sl, (length (classes_at student_df tt s d sl) ≤ 1)%nat) →
  (∀ subj, subj ∈ subjects → enrolls student_df subj s) →
  NoDup (pivot_key <$> filter (λ e, e_subject e ∈ subjects) tt).
Proof.
  intros Hone Hsub. induction tt as [|e tt IH]; [constructor|].
  assert (IH' : NoDup (pivot_key <$> filter (λ e, e_subject e ∈ subjects) tt)).
  { apply IH. intros d sl. etrans; [apply classes_at_cons_le|apply Hone]. }
  rewrite filter_cons. case_decide as He; [|done].
  rewrite fmap_cons. apply NoDup_cons. split; [|done].
  intros (e' & Hk & He')%list_elem_of_fmap.
  apply list_elem_of_filter in He' as [Hs' Hin'].
  injection Hk as Hsl Hd.
  specialize (Hone (e_day e) (e_slot e)). unfold classes_at in Hone.
  rewrite filter_cons_True in Hone by (repeat split; by apply Hsub).
  assert (Hin : e' ∈ filter (λ e0, e_day e0 = e_day e ∧ e_slot e0 = e_slot e ∧
                                   enrolls student_df (e_subject e0) s) tt).
  { apply list_elem_of_filter. repeat split; [done|done|by apply Hsub|done]. }
  destruct (filter _ tt); [by apply elem_of_nil in Hin|]. simpl in Hone. lia.
Qed.

Section Login.
Context {rng : Type} {RS : RandomSource rng} {SO : SetOrder}.

Lemma returned_nonempty (student_df : list row) (course_info : list (string * string))
    (g : rng) (vars : attempt_vars) (env' : solver_env rng) :
  course_info ≠ [] →
  run_solver student_df course_info g = Some (vars, env') →
  var_timetable vars ≠ [].
Proof.
  intros Hne Hrun Hnil. apply run_solver_nth in Hrun as (Hnth & _).
  apply nth_attempt_progress in Hnth as [_ Hcase]. rewrite Hnil in Hcase.
  destruct course_info; [done|]. simpl in Hcase. destruct (var_success vars); lia.
Qed.

(** X12.  For a non-empty catalog the returned frame is never the empty
    frame, so [master_schedule['Subject']] is defined: selecting the
    personal schedule cannot raise [KeyError]. *)
Theorem personal_schedule_defined (student_df : list row)
    (course_info : list (string * string)) (g : rng) (enrolled_subjects : list string) :
  course_info ≠ [] →
  ∃ master_schedule,
    generate_timetable student_df course_info g = Some master_schedule ∧
    is_Some (personal_schedule master_schedule enrolled_subjects).
Proof.
  intros Hne. destruct (run_solver_run student_df course_info g)
    as (vars & env' & Hrun & _).
  exists (var_timetable vars). unfold generate_timetable. rewrite Hrun.
  split; [done|]. pose proof (returned_nonempty _ _ _ _ _ Hne Hrun) as Hnil.
  unfold personal_schedule. destruct (var_timetable vars); [done|eauto].
Qed.

(** X13.  When the login selects the rows of one student and no others,
    the personal schedule holds exactly the returned records of that
    student's courses, and no two of them have the same time slot and
    day: the condition under which [pivot] raises does not arise. *)
Theorem personal_schedule_one_student (student_df : list row)
    (course_info : list (string * string)) (g : rng) (mask : row → bool) (s : string) :
  course_info ≠ [] →
  (∀ r, r ∈ student_df → mask r = true ↔ row_student_id r = s) →
  ∃ master_schedule mine,
    generate_timetable student_df course_info g = Some master_schedule ∧
    personal_schedule master_schedule (subjects_of (user_rows mask student_df)) = Some mine ∧
    mine = filter (λ e, enrolls student_df (e_subject e) s) master_schedule ∧
    NoDup (pivot_key <$> mine).
Proof.
  intros Hne Hmask.
  destruct (run_solver_run student_df course_info g) as (vars & env' & Hrun & _).
  assert (Hsub : ∀ subj, subj ∈ subjects_of (user_rows mask student_df) ↔
                         enrolls student_df subj s).
  { intros subj. unfold subjects_of, user_rows.
    rewrite list_elem_of_fmap, enrolls_exists. setoid_rewrite list_elem_of_filter.
    split.
    - intros (r & -> & Hm & Hr). exists r. split; [done|]. split; [done|]. by apply Hmask.
    - intros (r & Hr & <- & Hid). exists r. split; [done|]. split; [|done]. by apply Hmask. }
  exists (var_timetable vars),
    (filter (λ e, e_subject e ∈ subjects_of (user_rows mask student_df))
       (var_timetable vars)).
  split; [unfold generate_timetable; by rewrite Hrun|]. split; [|split].
  - pose proof (returned_nonempty _ _ _ _ _ Hne Hrun) as Hnil.
    unfold personal_schedule. by destruct (var_timetable vars).
  - apply list_filter_iff. intros e. apply Hsub.
  - apply (NoDup_pivot_keys student_df _ s); [|intros subj; apply Hsub].
    intros d sl. rewrite classes_at_filter. apply NoDup_fmap_filter_length.
    by destruct (returned_within_limits _ _ _ _ _ Hrun s d).
Qed.
End Login.



(** ** Strings *)

Lemma split_cons (sep : ascii) (s : string) : ∃ p ps, split sep s = p :: ps.
Proof.
  induction s as [|c s (p & ps & IH)]; simpl; [by eauto|].
  case_decide; [by eauto|]. rewrite IH. eauto.
Qed.

Lemma lstrip_head (s : string) :
  lstrip s = EmptyString ∨ ∃ c r, lstrip s = String c r ∧ isspace c = false.
Proof.
  induction s as [|c s IH]; simpl; [by left|].
  destruct (isspace c) eqn:Hc; [done|]. right. by exists c, s.
Qed.

Lemma rstrip_idemp (s : string) : rstrip (rstrip s) = rstrip s.
Proof.
  induction s as [|c s IH]; simpl; [done|].
  destruct (rstrip s) as [|c' r] eqn:Hr.
  - destruct (isspace c) eqn:Hc; simpl; [done|]. by rewrite Hc.
  - simpl in *. by rewrite IH.
Qed.

Lemma rstrip_head (c : ascii) (r : string) :
  isspace c = false → ∃ r', rstrip (String c r) = String c r'.
Proof.
  intros Hc. simpl. destruct (rstrip r); [rewrite Hc|]; eauto.
Qed.

(** A stripped string has nothing left to strip. *)
Lemma strip_idemp (s : string) : strip (strip s) = strip s.
Proof.
  unfold strip. destruct (lstrip_head s) as [->|(c & r & -> & Hc)]; [done|].
  destruct (rstrip_head c r Hc) as [r' Hr]. rewrite Hr. simpl lstrip. rewrite Hc.
  rewrite <- Hr. apply rstrip_idemp.
Qed.

(** ** The two loops *)

Lemma scan_header_run (lines : list string) (i : nat) (faculty faculty' : string) (h : Z) :
  scan_header i lines faculty = (faculty', h) →
  ((h = -1 ∧ Forall (λ l, is_header l = false) lines) ∨
   (∃ k line, h = Z.of_nat (i + k) ∧ lines !! k = Some line ∧ is_header line = true ∧
              Forall (λ l, is_header l = false) (take k lines))) ∧
  (faculty' = faculty ∨ ∃ line, line ∈ lines ∧ names_faculty line faculty').
Proof.
  revert i faculty. induction lines as [|line rest IH]; intros i faculty; simpl.
  - intros [= <- <-]. split; [left|by left]. split; [done|constructor].
  - set (f1 := if contains "Faculty Name" line then _ else _).
    assert (Hf1 : f1 = faculty ∨ names_faculty line f1).
    { unfold f1. destruct (contains "Faculty Name" line) eqn:Hc; [|by left].
      destruct (split "," line !! 1%nat) as [field|] eqn:Hs; [|by left].
      case_decide as He; [by left|]. right. split; [done|]. by exists field. }
    fold (is_header line). destruct (is_header line) eqn:Hh.
    + intros [= <- <-]. split.
      * right. exists 0%nat, line. rewrite Nat.add_0_r.
        split; [done|]. split; [done|]. split; [done|constructor].
      * destruct Hf1 as [->|Hf1]; [by left|]. right. exists line. split; [by left|done].
    + intros [Hidx Hfac]%IH. split.
      * destruct Hidx as [[-> Hall]|(k & l & -> & Hk & Hl & Hall)].
        -- left. split; [done|]. by constructor.
        -- right. exists (S k), l. split; [f_equal; lia|]. split; [done|]. split; [done|].
           simpl. by constructor.
      * destruct Hfac as [->|(l & Hl & Hn)].
        -- destruct Hf1 as [->|Hf1]; [by left|]. right. exists line. split; [by left|done].
        -- right. exists l. split; [by right|done].
Qed.

Lemma scan_subject_total (lines : list string) (indices : list nat) (subject : string) :
  Forall (λ i, (i < length lines)%nat) indices →
  is_Some (scan_subject lines indices subject).
Proof.
  revert subject. induction indices as [|i rest IH]; intros subject Hall; simpl; [eauto|].
  apply Forall_cons in Hall as [Hi Hall].
  destruct (lookup_lt_is_Some_2 lines i Hi) as [line ->]. simpl.
  destruct (split_cons "," line) as (p & ps & ->). simpl.
  destruct (negb _ && negb _); [|by apply IH]. case_decide; by apply IH.
Qed.

Lemma scan_subject_run (lines : list string) (indices : list nat)
    (subject subject' : string) :
  scan_subject lines indices subject = Some subject' →
  subject' = subject ∨
  ∃ i line, i ∈ indices ∧ lines !! i = Some line ∧ names_subject line subject'.
Proof.
  revert subject. induction indices as [|i rest IH]; intros subject; simpl.
  - intros [= <-]. by left.
  - destruct (lines !! i) as [line|] eqn:Hl; [|done]. simpl.
    assert (Hrest : ∀ s0, scan_subject lines rest s0 = Some subject' →
              subject' = s0 ∨ ∃ i0 line0, i0 ∈ i :: rest ∧ lines !! i0 = Some line0 ∧
                                          names_subject line0 subject').
    { intros s0 [->|(i0 & l0 & Hi0 & Hl0 & Hn)]%IH; [by left|].
      right. exists i0, l0. split; [by right|done]. }
    destruct (negb (contains "Faculty Name" line)) eqn:Hf; [|apply Hrest].
    destruct (negb (contains "Group Mail ID" line)) eqn:Hg; [|apply Hrest].
    simpl. destruct (split "," line !! 0%nat) as [field|] eqn:Hs; [|done]. simpl.
    case_decide as Hp; [|apply Hrest].
    intros [->|Hr]%Hrest; [|by right]. right. exists i, line.
    split; [by left|]. split; [done|].
    apply negb_true_iff in Hf, Hg. destruct Hp. repeat split; try done. by exists field.
Qed.

Lemma scan_header_bounds (lines : list string) (faculty : string) (h : Z) :
  scan_header 0 (take 10 lines) "Unknown" = (faculty, h) →
  (h = -1 ∧ Forall (λ l, is_header l = false) (take 10 lines)) ∨
  (∃ k line, h = Z.of_nat k ∧ (k < 10)%nat ∧ lines !! k = Some line ∧
             is_header line = true ∧ Forall (λ l, is_header l = false) (take k lines)).
Proof.
  intros [[Hno|(k & line & -> & Hk & Hh & Hall)] _]%scan_header_run; [by left|].
  right. exists k, line. apply lookup_take_Some in Hk as [Hk Hlt].
  split; [done|]. split; [done|]. split; [done|]. split; [done|].
  rewrite take_take in Hall. by replace (k `min` 10)%nat with k in Hall by lia.
Qed.

(** X14.  Scanning the head of a file never raises: the header index is
    below the number of lines, so every [lines[i]] of the second loop is
    in range, and the two [split(...)[0]] always exist. *)
Theorem scan_file_never_raises (file : string) (lines : list string) :
  is_Some (scan_file file lines).
Proof.
  unfold scan_file. destruct (scan_header 0 (take 10 lines) "Unknown") as [faculty h] eqn:Hh.
  assert (Hidx : Forall (λ i, (i < length lines)%nat) (seq 0 (Z.to_nat (Z.max 0 h)))).
  { apply Forall_forall. intros i Hi%elem_of_seq.
    apply scan_header_bounds in Hh as [[-> _]|(k & line & -> & _ & Hk & _)]; [simpl in Hi; lia|].
    apply lookup_lt_Some in Hk. lia. }
  destruct (scan_subject_total lines _ "Unknown" Hidx) as [subject ->]. simpl.
  destruct (split_cons "." file) as (p & ps & Hp).
  case_decide; [rewrite Hp|]; simpl; eauto.
Qed.

(** X15.  The header index is the index of the first line, among the
    first ten, that contains both "Student ID" and "Student Name", and
    -1 when there is none. *)
Theorem header_index_first_match (file : string) (lines : list string)
    (subject faculty : string) (header_idx : Z) :
  scan_file file lines = Some (subject, faculty, header_idx) →
  (header_idx = -1 ∧ ∀ line, line ∈ take 10 lines → is_header line = false) ∨
  (0 ≤ header_idx < 10 ∧
   (∃ line, lines !! Z.to_nat header_idx = Some line ∧ is_header line = true) ∧
   ∀ j line, (j < Z.to_nat header_idx)%nat → lines !! j = Some line →
             is_header line = false).
Proof.
  unfold scan_file. destruct (scan_header 0 (take 10 lines) "Unknown") as [fac h] eqn:Hh.
  destruct (scan_subject _ _ _) as [subj|]; [|done]. simpl.
  destruct (if decide (subj = "Unknown") then _ else _); [|done]. simpl.
  intros [= _ _ <-].
  apply scan_header_bounds in Hh as [[-> Hall]|(k & line & -> & Hlt & Hk & Hl & Hall)].
  - left. split; [done|]. by apply Forall_forall.
  - right. rewrite Nat2Z.id. split; [lia|]. split; [by exists line|].
    intros j l Hj Hjl. rewrite Forall_forall in Hall. apply Hall.
    apply list_elem_of_lookup. exists j. by apply lookup_take_Some.
Qed.

(** X16.  The faculty of a file is "Unknown" or the stripped second field
    of one of the first ten lines, a line that contains "Faculty Name";
    it is then not empty and has no white space at either end. *)
Theorem faculty_is_clean (file : string) (lines : list string)
    (subject faculty : string) (header_idx : Z) :
  scan_file file lines = Some (subject, faculty, header_idx) →
  faculty = "Unknown" ∨
  (faculty ≠ "" ∧ strip faculty = faculty ∧
   ∃ line, line ∈ take 10 lines ∧ names_faculty line faculty).
Proof.
  unfold scan_file. destruct (scan_header 0 (take 10 lines) "Unknown") as [fac h] eqn:Hh.
  destruct (scan_subject _ _ _) as [subj|]; [|done]. simpl.
  destruct (if decide (subj = "Unknown") then _ else _); [|done]. simpl.
  intros [= _ <- _].
  apply scan_header_run in Hh as [_ [->|(line & Hin & Hn)]]; [by left|]. right.
  pose proof Hn as (_ & field & _ & -> & Hne).
  split; [done|]. split; [apply strip_idemp|]. by exists line.
Qed.

(** X17.  The subject of a file is the stripped first field of a line
    before the header, a line that contains neither "Faculty Name" nor
    "Group Mail ID"; it is then not empty, not "SN", "Serial No." or
    "Unknown", and has no white space at either end.  Failing that, and
    always when the header is the first line or is not found, the
    subject is the file name up to its first dot. *)
Theorem subject_or_file_name (file : string) (lines : list string)
    (subject faculty : string) (header_idx : Z) :
  scan_file file lines = Some (subject, faculty, header_idx) →
  split "." file !! 0%nat = Some subject ∨
  (0 < header_idx ∧ subject ≠ "" ∧ subject ≠ "Unknown" ∧ strip subject = subject ∧
   ∃ i line, (Z.of_nat i < header_idx) ∧ lines !! i = Some line ∧
             names_subject line subject).
Proof.
  unfold scan_file. destruct (scan_header 0 (take 10 lines) "Unknown") as [fac h] eqn:Hh.
  destruct (scan_subject _ _ _) as [subj|] eqn:Hs; [|done]. simpl.
  case_decide as Hu.
  - destruct (split "." file !! 0%nat) as [base|] eqn:Hb; [|done]. simpl.
    intros [= <- _ _]. by left.
  - simpl. intros [= <- <- <-]. right.
    apply scan_subject_run in Hs as [?|(i & line & Hi & Hl & Hn)]; [done|].
    apply elem_of_seq in Hi. pose proof Hn as (_ & _ & field & _ & -> & Hne & _).
    split; [lia|]. split; [done|]. split; [done|]. split; [apply strip_idemp|].
    exists i, line. split; [lia|done].
Qed.

(** ** The catalog *)

Lemma dict_keys_set (d : list (string * string)) (k v : string) :
  dict_keys (dict_set d k v) =
  if decide (k ∈ dict_keys d) then dict_keys d else (dict_keys d ++ [k])%list.
Proof.
  unfold dict_keys. induction d as [|[k' v'] d IH]; [done|].
  change (dict_set ((k', v') :: d) k v)
    with (if decide (k' = k) then (k, v) :: d else (k', v') :: dict_set d k v).
  destruct (decide (k' = k)) as [->|Hne]; rewrite !fmap_cons; cbn [fst].
  - rewrite decide_True; [done|by left].
  - rewrite IH. destruct (decide (k ∈ d.*1)) as [Hin|Hnin].
    + rewrite decide_True; [done|by right].
    + rewrite decide_False; [done|]. intros [?|?]%elem_of_cons; by subst.
Qed.

Lemma NoDup_dict_set (d : list (string * string)) (k v : string) :
  NoDup (dict_keys d) → NoDup (dict_keys (dict_set d k v)).
Proof.
  intros Hnd. rewrite dict_keys_set. case_decide as Hk; [done|].
  apply NoDup_app. split; [done|]. split; [|apply NoDup_singleton].
  intros x Hx ->%list_elem_of_singleton. done.
Qed.

Lemma elem_of_dict_set (d : list (string * string)) (k v k' v' : string) :
  (k', v') ∈ dict_set d k v → (k', v') = (k, v) ∨ (k', v') ∈ d.
Proof.
  induction d as [|[k0 v0] d IH]; simpl.
  - intros ->%list_elem_of_singleton. by left.
  - case_decide.
    + intros [->|Hin]%elem_of_cons; [by left|]. right. by right.
    + intros [->|Hin]%elem_of_cons; [right; by left|].
      destruct (IH Hin) as [?|?]; [by left|]. right. by right.
Qed.

Lemma dict_get_set (d : list (string * string)) (k v k' dflt : string) :
  dict_get (dict_set d k v) k' dflt = if decide (k = k') then v else dict_get d k' dflt.
Proof.
  induction d as [|[k0 v0] d IH]; simpl.
  - by destruct (decide (k = k')).
  - destruct (decide (k0 = k)) as [->|Hne]; simpl.
    + by destruct (decide (k = k')).
    + rewrite IH. destruct (decide (k0 = k')) as [->|]; [|done].
      by rewrite decide_False.
Qed.

Lemma foldl_add_file_keys (files : list (string * option (list string)))
    (d : list (string * string)) :
  NoDup (dict_keys d) →
  NoDup (dict_keys (foldl add_file d files)) ∧
  ∀ subject faculty, (subject, faculty) ∈ foldl add_file d files →
    (subject, faculty) ∈ d ∨
    ∃ file lines h, (file, Some lines) ∈ files ∧
                    scan_file file lines = Some (subject, faculty, h).
Proof.
  revert d. induction files as [|[file ol] files IH]; intros d Hnd; simpl.
  - split; [done|]. by left.
  - unfold add_file at 2 4. simpl.
    destruct (ol ≫= scan_file file) as [[[subj fac] h]|] eqn:Hscan.
    + destruct (IH (dict_set d subj fac) (NoDup_dict_set _ _ _ Hnd)) as [Hnd' Hfrom].
      split; [done|]. intros subject faculty Hin.
      destruct (Hfrom subject faculty Hin) as [Hd|(f & ls & h' & Hf & Hs)].
      * apply elem_of_dict_set in Hd as [[= -> ->]|Hd]; [|by left].
        right. destruct ol as [lines|]; [|done]. simpl in Hscan.
        exists file, lines, h. split; [by left|done].
      * right. exists f, ls, h'. split; [by right|done].
    + destruct (IH d Hnd) as [Hnd' Hfrom]. split; [done|].
      intros subject faculty Hin.
      destruct (Hfrom subject faculty Hin) as [Hd|(f & ls & h' & Hf & Hs)]; [by left|].
      right. exists f, ls, h'. split; [by right|done].
Qed.

Lemma foldl_add_file_get (files : list (string * option (list string)))
    (d : list (string * string)) (k dflt : string) :
  (∀ file lines faculty h, (file, Some lines) ∈ files →
     scan_file file lines ≠ Some (k, faculty, h)) →
  dict_get (foldl add_file d files) k dflt = dict_get d k dflt.
Proof.
  revert d. induction files as [|[file ol] files IH]; intros d Hno; simpl; [done|].
  rewrite IH.
  - unfold add_file. simpl. destruct (ol ≫= scan_file file) as [[[subj fac] h]|] eqn:Hscan;
      [|done].
    rewrite dict_get_set. case_decide as Hk; [|done]. subst subj. exfalso.
    destruct ol as [lines|]; [|done]. simpl in Hscan.
    by apply (Hno file lines fac h); [left|].
  - intros f ls fac h Hin. apply Hno. by right.
Qed.

(** X18.  The catalog [process_data] builds has no subject twice, and each
    of its entries is the subject and the faculty scanned from one of
    the files that could be read. *)
Theorem catalog_keys_distinct (files : list (string * option (list string))) :
  NoDup (dict_keys (course_info_of files)) ∧
  ∀ subject faculty, (subject, faculty) ∈ course_info_of files →
    ∃ file lines header_idx,
      (file, Some lines) ∈ files ∧
      scan_file file lines = Some (subject, faculty, header_idx).
Proof.
  destruct (foldl_add_file_keys files []) as [Hnd Hfrom]; [constructor|].
  split; [done|]. intros subject faculty Hin.
  destruct (Hfrom subject faculty Hin) as [Hnil|?]; [by apply elem_of_nil in Hnil|done].
Qed.

(** X19.  When several files give the same subject, the catalog keeps the
    faculty of the last of them. *)
Theorem catalog_last_file_wins (before after : list (string * option (list string)))
    (file : string) (lines : list string) (subject faculty dflt : string)
    (header_idx : Z) :
  scan_file file lines = Some (subject, faculty, header_idx) →
  (∀ file' lines' faculty' h', (file', Some lines') ∈ after →
     scan_file file' lines' ≠ Some (subject, faculty', h')) →
  dict_get (course_info_of (before ++ (file, Some lines) :: after)) subject dflt = faculty.
Proof.
  intros Hscan Hafter. unfold course_info_of. rewrite foldl_app. simpl.
  rewrite foldl_add_file_get by done. unfold add_file at 1. simpl. rewrite Hscan.
  rewrite dict_get_set. by rewrite decide_True.
Qed.

(** ** The string operations are those of Python *)

Lemma prefix_app (needle hay : string) :
  String.prefix needle hay = true ↔ ∃ post, hay = needle +:+ post.
Proof.
  revert hay. induction needle as [|a needle IH]; intros hay.
  - split; [by exists hay|by destruct hay].
  - destruct hay as [|b hay]; simpl; [split; [done|by intros [? ?]]|].
    destruct (Ascii.ascii_dec a b) as [->|Hne].
    + rewrite IH. split; intros [post Hp]; exists post; [by rewrite Hp|by injection Hp].
    + split; [done|]. intros [post [= ? ?]]. done.
Qed.

(** [contains] is the substring test. *)
Lemma contains_app (needle hay : string) :
  contains needle hay = true ↔ ∃ pre post, hay = pre +:+ needle +:+ post.
Proof.
  induction hay as [|c hay IH].
  - change (contains needle "") with (String.prefix needle "" || false).
    rewrite orb_false_r, prefix_app. split.
    + intros [post Hp]. by exists "", post.
    + intros (pre & post & Hp). destruct pre; [by exists post|done].
  - change (contains needle (String c hay))
      with (String.prefix needle (String c hay) || contains needle hay).
    rewrite orb_true_iff, prefix_app, IH. split.
    + intros [[post Hp]|(pre & post & Hp)]; [by exists "", post|].
      exists (String c pre), post. simpl. by rewrite Hp.
    + intros (pre & post & Hp). destruct pre as [|c' pre]; [left; by exists post|].
      right. injection Hp as -> Hp. by exists pre, post.
Qed.

(** Joining the parts of a split with the separator gives the string
    back. *)
Lemma split_join (sep : ascii) (s : string) :
  String.concat (String sep "") (split sep s) = s.
Proof.
  induction s as [|c s IH]; [done|]. simpl split.
  destruct (split_cons sep s) as (p & ps & Hs). rewrite Hs in *.
  case_decide as Hc.
  - subst c. change (String.concat (String sep "") ("" :: p :: ps))
      with (String sep (String.concat (String sep "") (p :: ps))). by rewrite IH.
  - rewrite <- IH. by destruct ps.
Qed.

(** ** The further properties on sample inputs *)

Lemma full_week_eq :
  place_subjects (RS:=still_source) (SO:=elements_order) (catalog 21)
    (build_course_students (one_student 21)) (dict_keys (catalog 20)) []
    (init_schedule (one_student 21)) tt
  = Some (true, full_week_timetable, full_week_tracker, full_week_index, tt).
Proof.
  vm_cast_no_check
    (eq_refl (Some (true, full_week_timetable, full_week_tracker, full_week_index, tt))).
Qed.

(** X2 for "Stats" on Monday at nine, once "OR" is placed there. *)
Lemma limit_branch_never_fires_witness :
  place_subjects (RS:=still_source) (SO:=elements_order) demo_info
    (build_course_students demo_df) ["OR"] [] (init_schedule demo_df) tt
    = Some (true, or_timetable, demo_tracker, build_course_students demo_df, tt) ∧
  ("Monday", "09:00 AM - 10:30 AM") ∈ slot_grid ∧
  eval_slot demo_tracker
    (enrolled_students (SO:=elements_order)
       (stored_by_read (build_course_students demo_df) "Stats") "Stats")
    ("Monday", "09:00 AM - 10:30 AM") = Some (Verdict true false (-1000)) ∧
  false = false ∧
  (true = true ↔ taken demo_df or_timetable "Stats" ("Monday", "09:00 AM - 10:30 AM")).
Proof.
  assert (H1 : place_subjects (RS:=still_source) (SO:=elements_order) demo_info
                 (build_course_students demo_df) ["OR"] [] (init_schedule demo_df) tt
               = Some (true, or_timetable, demo_tracker, build_course_students demo_df, tt))
    by vm_cast_no_check
         (eq_refl (Some (true, or_timetable, demo_tracker,
                         build_course_students demo_df, tt))).
  assert (H2 : ("Monday", "09:00 AM - 10:30 AM") ∈ slot_grid) by (by left).
  assert (H3 : eval_slot demo_tracker
                 (enrolled_students (SO:=elements_order)
                    (stored_by_read (build_course_students demo_df) "Stats") "Stats")
                 ("Monday", "09:00 AM - 10:30 AM") = Some (Verdict true false (-1000)))
    by vm_cast_no_check (eq_refl (Some (Verdict true false (-1000)))).
  split; [exact H1|]. split; [exact H2|]. split; [exact H3|].
  exact (limit_branch_never_fires (RS:=still_source) (SO:=elements_order) demo_df demo_info
           ["OR"] or_timetable demo_tracker (build_course_students demo_df) tt tt true
           "Stats" ("Monday", "09:00 AM - 10:30 AM") (Verdict true false (-1000))
           H1 H2 H3).
Defined.

(** X3 for the twenty-first course of one student: the week is full. *)
Lemma unplaced_iff_all_slots_taken_witness :
  place_subjects (RS:=still_source) (SO:=elements_order) (catalog 21)
    (build_course_students (one_student 21)) (dict_keys (catalog 20)) []
    (init_schedule (one_student 21)) tt
    = Some (true, full_week_timetable, full_week_tracker, full_week_index, tt) ∧
  place_subject (RS:=still_source) (SO:=elements_order) (catalog 21)
    (stored_by_read full_week_index "C20") "C20"
    full_week_timetable full_week_tracker tt
    = Some (false, full_week_timetable, full_week_tracker, tt) ∧
  (false = false ↔
   ∀ time, time ∈ slot_grid → taken (one_student 21) full_week_timetable "C20" time).
Proof.
  assert (H2 : place_subject (RS:=still_source) (SO:=elements_order) (catalog 21)
                 (stored_by_read full_week_index "C20") "C20"
                 full_week_timetable full_week_tracker tt
               = Some (false, full_week_timetable, full_week_tracker, tt))
    by vm_cast_no_check
         (eq_refl (Some (false, full_week_timetable, full_week_tracker, tt))).
  split; [exact full_week_eq|]. split; [exact H2|].
  exact (unplaced_iff_all_slots_taken (RS:=still_source) (SO:=elements_order)
           (one_student 21) (catalog 21) (dict_keys (catalog 20))
           full_week_timetable full_week_timetable full_week_tracker full_week_tracker
           full_week_index tt tt tt "C20" false full_week_eq H2).
Defined.

(** X5 on the sample catalog of four courses. *)
Lemma small_catalog_first_attempt_witness :
  (length demo_info ≤ 20)%nat ∧
  ∃ vars env',
    run_solver (RS:=lcg_source) (SO:=elements_order) demo_df demo_info 7
      = Some (vars, env') ∧
    var_attempt vars = 0%nat ∧ var_success vars = true ∧
    length (var_timetable vars) = length demo_info.
Proof.
  assert (H : (length demo_info ≤ 20)%nat) by (simpl; lia).
  split; [exact H|].
  exact (small_catalog_first_attempt (RS:=lcg_source) (SO:=elements_order)
           demo_df demo_info 7 H).
Defined.

(** X6 for one student enrolled in 21 courses. *)
Lemma overloaded_student_fails_witness :
  (20 < length (filter (λ subj, enrolls (one_student 21) subj "H001")
                  (dict_keys (catalog 21))))%nat ∧
  ∃ vars env',
    run_solver (RS:=lcg_source) (SO:=elements_order) (one_student 21) (catalog 21) 7
      = Some (vars, env') ∧
    var_attempt vars = 99%nat ∧ var_success vars = false ∧
    (length (var_timetable vars) < length (catalog 21))%nat.
Proof.
  assert (H : (20 < length (filter (λ subj, enrolls (one_student 21) subj "H001")
                              (dict_keys (catalog 21))))%nat) by compute_done.
  split; [exact H|].
  exact (overloaded_student_fails (RS:=lcg_source) (SO:=elements_order)
           (one_student 21) (catalog 21) 7 "H001" H).
Defined.

(** X8 for two students with one course each. *)
Lemma disjoint_courses_first_attempt_witness :
  NoDup (dict_keys demo_info) ∧
  (∀ s c1 c2, c1 ∈ dict_keys demo_info → c2 ∈ dict_keys demo_info →
     enrolls disjoint_df c1 s → enrolls disjoint_df c2 s → c1 = c2) ∧
  ∃ vars env',
    run_solver (RS:=lcg_source) (SO:=elements_order) disjoint_df demo_info 7
      = Some (vars, env') ∧
    var_attempt vars = 0%nat ∧ var_success vars = true ∧
    e_subject <$> var_timetable vars ≡ₚ dict_keys demo_info.
Proof.
  assert (Hnd : NoDup (dict_keys demo_info)) by compute_done.
  assert (Hdis : ∀ s c1 c2, c1 ∈ dict_keys demo_info → c2 ∈ dict_keys demo_info →
            enrolls disjoint_df c1 s → enrolls disjoint_df c2 s → c1 = c2).
  { intros s c1 c2 _ _ (r1 & H1 & <- & <-)%enrolls_exists (r2 & H2 & <- & Hs)%enrolls_exists.
    unfold disjoint_df in H1, H2. rewrite !elem_of_cons in H1, H2.
    destruct H1 as [->|[->|H1]], H2 as [->|[->|H2]];
      try done; by apply elem_of_nil in H1 || by apply elem_of_nil in H2. }
  split; [exact Hnd|]. split; [exact Hdis|].
  exact (disjoint_courses_first_attempt (RS:=lcg_source) (SO:=elements_order)
           disjoint_df demo_info 7 Hnd Hdis).
Defined.

(** X11 for one student enrolled in six courses. *)
Lemma single_student_balanced_witness :
  (∀ r, r ∈ one_student 6 → row_student_id r = "H001") ∧
  ∃ vars env',
    run_solver (RS:=lcg_source) (SO:=reverse_order) (one_student 6) (catalog 6) 3
      = Some (vars, env') ∧
    balanced (one_student 6) (var_timetable vars) "H001" ∧
    ((5 ≤ length (filter (λ e, enrolls (one_student 6) (e_subject e) "H001")
                    (var_timetable vars)))%nat →
     ∀ d, d ∈ days → classes_on (one_student 6) (var_timetable vars) "H001" d ≠ []).
Proof.
  assert (H : ∀ r, r ∈ one_student 6 → row_student_id r = "H001").
  { intros r (i & -> & _)%list_elem_of_fmap. reflexivity. }
  split; [exact H|].
  pose proof six_run_eq as Hrun. unfold six_run in Hrun.
  eexists _, _. split; [exact Hrun|].
  exact (single_student_balanced (one_student 6) (catalog 6) 3 "H001" _ _ H Hrun).
Defined.

(** X12 on the sample frame. *)
Lemma personal_schedule_defined_witness :
  demo_info ≠ [] ∧
  ∃ master_schedule,
    generate_timetable (RS:=lcg_source) (SO:=elements_order) demo_df demo_info 7
      = Some master_schedule ∧
    is_Some (personal_schedule master_schedule ["OR"; "Stats"]).
Proof.
  assert (H : demo_info ≠ []) by done.
  split; [exact H|].
  exact (personal_schedule_defined (RS:=lcg_source) (SO:=elements_order)
           demo_df demo_info 7 ["OR"; "Stats"] H).
Defined.

(** X13 for a login that selects the rows of H001. *)
Lemma personal_schedule_one_student_witness :
  demo_info ≠ [] ∧
  (∀ r, r ∈ demo_df → h001_mask r = true ↔ row_student_id r = "H001") ∧
  ∃ master_schedule mine,
    generate_timetable (RS:=lcg_source) (SO:=elements_order) demo_df demo_info 7
      = Some master_schedule ∧
    personal_schedule master_schedule (subjects_of (user_rows h001_mask demo_df))
      = Some mine ∧
    mine = filter (λ e, enrolls demo_df (e_subject e) "H001") master_schedule ∧
    NoDup (pivot_key <$> mine).
Proof.
  assert (H1 : demo_info ≠ []) by done.
  assert (H2 : ∀ r, r ∈ demo_df → h001_mask r = true ↔ row_student_id r = "H001").
  { intros r _. unfold h001_mask. apply bool_decide_eq_true. }
  split; [exact H1|]. split; [exact H2|].
  exact (personal_schedule_one_student (RS:=lcg_source) (SO:=elements_order)
           demo_df demo_info 7 h001_mask "H001" H1 H2).
Defined.

Lemma sample_scan :
  scan_file "or.csv" sample_lines = Some ("Operations Research", "Dr. Rao", 2).
Proof. reflexivity. Qed.

(** X15 on the sample file head: the header is its third line. *)
Lemma header_index_first_match_witness :
  scan_file "or.csv" sample_lines = Some ("Operations Research", "Dr. Rao", 2) ∧
  ((2 = -1 ∧ ∀ line, line ∈ take 10 sample_lines → is_header line = false) ∨
   (0 ≤ 2 < 10 ∧
    (∃ line, sample_lines !! Z.to_nat 2 = Some line ∧ is_header line = true) ∧
    ∀ j line, (j < Z.to_nat 2)%nat → sample_lines !! j = Some line →
              is_header line = false)).
Proof.
  split; [exact sample_scan|].
  exact (header_index_first_match "or.csv" sample_lines
           "Operations Research" "Dr. Rao" 2 sample_scan).
Defined.

(** X16 on the sample file head. *)
Lemma faculty_is_clean_witness :
  scan_file "or.csv" sample_lines = Some ("Operations Research", "Dr. Rao", 2) ∧
  ("Dr. Rao" = "Unknown" ∨
   ("Dr. Rao" ≠ "" ∧ strip "Dr. Rao" = "Dr. Rao" ∧
    ∃ line, line ∈ take 10 sample_lines ∧ names_faculty line "Dr. Rao")).
Proof.
  split; [exact sample_scan|].
  exact (faculty_is_clean "or.csv" sample_lines
           "Operations Research" "Dr. Rao" 2 sample_scan).
Defined.

(** X17 on the sample file head. *)
Lemma subject_or_file_name_witness :
  scan_file "or.csv" sample_lines = Some ("Operations Research", "Dr. Rao", 2) ∧
  (split "." "or.csv" !! 0%nat = Some "Operations Research" ∨
   (0 < 2 ∧ "Operations Research" ≠ "" ∧ "Operations Research" ≠ "Unknown" ∧
    strip "Operations Research" = "Operations Research" ∧
    ∃ i line, (Z.of_nat i < 2) ∧ sample_lines !! i = Some line ∧
              names_subject line "Operations Research")).
Proof.
  split; [exact sample_scan|].
  exact (subject_or_file_name "or.csv" sample_lines
           "Operations Research" "Dr. Rao" 2 sample_scan).
Defined.

(** X19 for the sample file between an unreadable file and a file
    without lines. *)
Lemma catalog_last_file_wins_witness :
  scan_file "or.csv" sample_lines = Some ("Operations Research", "Dr. Rao", 2) ∧
  (∀ file' lines' faculty' h', (file', Some lines') ∈ [("empty.csv", Some [])] →
     scan_file file' lines' ≠ Some ("Operations Research", faculty', h')) ∧
  dict_get (course_info_of ([("bad.csv", None)] ++ ("or.csv", Some sample_lines)
                              :: [("empty.csv", Some [])]))
    "Operations Research" "Unknown" = "Dr. Rao".
Proof.
  assert (H : ∀ file' lines' faculty' h', (file', Some lines') ∈ [("empty.csv", Some [])] →
            scan_file file' lines' ≠ Some ("Operations Research", faculty', h')).
  { intros file' lines' faculty' h' [= -> ->]%list_elem_of_singleton. done. }
  split; [exact sample_scan|]. split; [exact H|].
  exact (catalog_last_file_wins [("bad.csv", None)] [("empty.csv", Some [])]
           "or.csv" sample_lines "Operations Research" "Dr. Rao" "Unknown" 2
           sample_scan H).
Defined.
